(** * Total Health Conferencing LOR/LOA generator: pricing engine and event matcher

    A shallow embedding of [v2/config/pricing.py], [v2/core/pricing_calc.py],
    [v2/config/events.py] and [v2/services/event_matcher.py], and the
    properties of these two components; then of the multi-meeting
    packages of [v2/core/models.py] and [v2/services/multi_meeting.py]
    and of the add-on check boxes of [v2/app.py].

    Conventions of the embedding.
    - A Python [float] amount is the exact rational it denotes ([Qc], the
      canonical rationals, so that [=] is Python's [==] on finite values);
      [nan] and the infinities are outside the model.  The module
      [Binary64] re-runs the rounding helper on IEEE binary64 values.
    - A Python [str] is a [string] holding its UTF-8 bytes.  [lower] and
      [split] act on the ASCII range, which covers every name of the
      catalog; cased letters and white space beyond ASCII are outside the
      model.
    - A Python [dict] is a [gmap]; subscripting a missing key raises
      [KeyError], modelled in the error monad [PyResult].
    - [st.secrets] is deployment data: the three price tables the
      configuration functions return are a [PricingTables] record, and
      [fallback_tables] is what the code returns when no secret is set. *)

From Stdlib Require Import ZArith QArith Qcanon Qround String Ascii List Bool Lia Lqa.
From Stdlib Require Import Permutation Sorted Floats.
From Stdlib Require DecimalString DecimalN.
From stdpp Require Import base gmap strings list.

Import ListNotations.
Local Open Scope string_scope.

(** ** A small error monad for Python exceptions *)

Inductive PyError : Type :=
| KeyError (key : string)
| OverflowError
| ValueError.

Inductive PyResult (A : Type) : Type :=
| Ok (a : A)
| Raise (e : PyError).

Arguments Ok {A} a.
Arguments Raise {A} e.

Definition py_bind {A B : Type} (m : PyResult A) (k : A -> PyResult B) : PyResult B :=
  match m with
  | Ok a => k a
  | Raise e => Raise e
  end.

Notation "'let*' x ':=' m 'in' k" := (py_bind m (fun x => k))
  (at level 10, x name, m at level 100, k at level 200, only parsing).

(** [d[key]] on a dict. *)
Definition dict_getitem {V : Type} (d : gmap string V) (key : string) : PyResult V :=
  match d !! key with
  | Some v => Ok v
  | None => Raise (KeyError key)
  end.

(** [key in d] on a dict. *)
Definition dict_contains {V : Type} (d : gmap string V) (key : string) : bool :=
  match d !! key with
  | Some _ => true
  | None => false
  end.

(** [d.get(key, default)] on a dict. *)
Definition dict_get {V : Type} (d : gmap string V) (key : string) (default : V) : V :=
  match d !! key with
  | Some v => v
  | None => default
  end.

(** ** config/pricing.py *)

Module Pricing.

Local Open Scope Qc_scope.

(** Amounts of money. *)
Abbreviation amount := Qc.

Definition of_Z (n : Z) : amount := Q2Qc (inject_Z n).

(** One value of an add-on table: [{"label": ..., "price": ...}]. *)
Record AddOnEntry : Type := mkAddOnEntry {
  label : string;
  price : amount
}.

(** The results of [get_booth_prices()], [get_add_ons_2025()] and
    [get_add_ons_2026()], which read [st.secrets]. *)
Record PricingTables : Type := mkPricingTables {
  booth_prices : gmap string amount;
  add_ons_2025 : gmap string AddOnEntry;
  add_ons_2026 : gmap string AddOnEntry
}.

Definition fallback_booth_prices : gmap string amount :=
  list_to_map [
    ("standard_1d", of_Z 5000);
    ("standard_2d", of_Z 7500);
    ("platinum", of_Z 10000);
    ("best_of", of_Z 10000);
    ("premier", of_Z 15000)
  ].

Definition _get_fallback_add_ons_2025 : gmap string AddOnEntry :=
  list_to_map [
    ("program_ad_full", mkAddOnEntry "Program Guide Full Page Ad" (of_Z 2000));
    ("charging_stations", mkAddOnEntry "In-Person Charging Station" (of_Z 2000));
    ("wifi_sponsorship", mkAddOnEntry "Wi-Fi Network Sponsorship" (of_Z 3000));
    ("platform_banner", mkAddOnEntry "Platform Banner Ad" (of_Z 2000));
    ("email_banner", mkAddOnEntry "Email Banner Ad" (of_Z 2500));
    ("registration_banner", mkAddOnEntry "Registration Banner Ad" (of_Z 2000));
    ("networking_reception", mkAddOnEntry "In-Person Networking Reception" (of_Z 3500));
    ("networking_activity", mkAddOnEntry "Networking Activity / Excursion" (of_Z 3500));
    ("advisory_board", mkAddOnEntry "Advisory Board (3-hour)" (of_Z 30000));
    ("non_cme_session", mkAddOnEntry "Non-CME/CE Session (45 min)" (of_Z 50000))
  ].

Definition _get_fallback_add_ons_2026 : gmap string AddOnEntry :=
  list_to_map [
    ("program_ad_full", mkAddOnEntry "Program Guide Full Page Ad" (of_Z 2000));
    ("charging_stations", mkAddOnEntry "In-Person Charging Station" (of_Z 3000));
    ("wifi_sponsorship", mkAddOnEntry "Wi-Fi Network Sponsorship" (of_Z 3000));
    ("platform_banner", mkAddOnEntry "Platform Banner Ad" (of_Z 2000));
    ("email_banner", mkAddOnEntry "Email Banner Ad" (of_Z 2500));
    ("registration_banner", mkAddOnEntry "Registration Banner Ad" (of_Z 2000));
    ("networking_reception", mkAddOnEntry "In-Person Networking Reception" (of_Z 3500));
    ("networking_activity", mkAddOnEntry "Networking Activity / Excursion" (of_Z 3500));
    ("advisory_board", mkAddOnEntry "Advisory Board (3-hour)" (of_Z 30000));
    ("non_cme_session", mkAddOnEntry "Non-CME/CE Session (45 min)" (of_Z 50000))
  ].

(** The tables of a deployment without secrets. *)
Definition fallback_tables : PricingTables :=
  mkPricingTables fallback_booth_prices _get_fallback_add_ons_2025 _get_fallback_add_ons_2026.

Definition get_booth_prices (t : PricingTables) : gmap string amount := booth_prices t.
Definition get_add_ons_2025 (t : PricingTables) : gmap string AddOnEntry := add_ons_2025 t.
Definition get_add_ons_2026 (t : PricingTables) : gmap string AddOnEntry := add_ons_2026 t.

Definition get_add_ons_pricing (t : PricingTables) (year : Z) : gmap string AddOnEntry :=
  if (year =? 2026)%Z then get_add_ons_2026 t else get_add_ons_2025 t.

(** One value of [DISCOUNT_OPTIONS]; the multiplier of ["custom"] is [None]. *)
Record DiscountOption : Type := mkDiscountOption {
  discount_label : string;
  multiplier : option amount
}.

Definition DISCOUNT_OPTIONS : gmap string DiscountOption :=
  list_to_map [
    ("none", mkDiscountOption "No Discount (0%)" (Some (Q2Qc (100 # 100))));
    ("minus_10", mkDiscountOption "10% Discount" (Some (Q2Qc (90 # 100))));
    ("minus_15", mkDiscountOption "15% Discount" (Some (Q2Qc (85 # 100))));
    ("minus_20", mkDiscountOption "20% Discount" (Some (Q2Qc (80 # 100))));
    ("custom", mkDiscountOption "Custom Total Override" None)
  ].

(** [DISCOUNT_OPTIONS.get(discount_key, {}).get("multiplier")] *)
Definition get_discount_multiplier (discount_key : string) : option amount :=
  match DISCOUNT_OPTIONS !! discount_key with
  | Some opt => multiplier opt
  | None => None
  end.

(** Python's [round(x)] of a float to an int: nearest integer, ties to the
    even one. *)
Definition py_round (x : amount) : Z :=
  let f := Qfloor x in
  match Qccompare (x - of_Z f)%Qc (Q2Qc (1 # 2)) with
  | Lt => f
  | Gt => (f + 1)%Z
  | Eq => if Z.even f then f else (f + 1)%Z
  end.

(** [round(amount / 50.0) * 50.0] *)
Definition round_nearest_50 (a : amount) : amount :=
  (of_Z (py_round (a / of_Z 50)) * of_Z 50)%Qc.

End Pricing.

(** ** core/models.py: the result of a pricing calculation *)

Module Models.

Import Pricing.

Record PricingCalculation : Type := mkPricingCalculation {
  booth_tier : string;
  booth_price : amount;
  add_on_keys : list string;
  add_ons_total : amount;
  subtotal : amount;
  discount_key : string;
  discount_multiplier : amount;
  discount_amount : amount;
  final_total : amount;
  rounded_total : amount
}.

End Models.

(** ** core/pricing_calc.py *)

Module PricingEngine.

Import Pricing Models.
Local Open Scope Qc_scope.

(** [sum(add_ons_pricing[key]["price"] for key in add_on_keys
        if key in add_ons_pricing)], the accumulator starting at 0. *)
Fixpoint sum_add_on_prices (add_ons_pricing : gmap string AddOnEntry)
    (add_on_keys : list string) (acc : amount) : PyResult amount :=
  match add_on_keys with
  | [] => Ok acc
  | key :: rest =>
      if dict_contains add_ons_pricing key then
        let* entry := dict_getitem add_ons_pricing key in
        sum_add_on_prices add_ons_pricing rest (acc + price entry)
      else
        sum_add_on_prices add_ons_pricing rest acc
  end.

(** [m or 1.0] for an optional float [m]: [None] and [0.0] are falsy. *)
Definition or_one (m : option amount) : amount :=
  match m with
  | Some x => if decide (x = 0) then 1 else x
  | None => 1
  end.

Definition calculate_pricing (t : PricingTables) (booth_tier : string)
    (add_on_keys : list string) (event_year : Z) (discount_key : string)
    (custom_total : option amount) : PyResult PricingCalculation :=
  let booth_prices := get_booth_prices t in
  let add_ons_pricing := get_add_ons_pricing t event_year in
  let booth_price :=
    if String.eqb booth_tier "(no booth)" then 0
    else dict_get booth_prices booth_tier 0 in
  let* add_ons_total := sum_add_on_prices add_ons_pricing add_on_keys 0 in
  let subtotal := booth_price + add_ons_total in
  let '(final_total, discount_multiplier, discount_amount) :=
    match String.eqb discount_key "custom", custom_total with
    | true, Some custom =>
        (custom, 0, subtotal - custom)
    | _, _ =>
        let discount_multiplier := or_one (get_discount_multiplier discount_key) in
        let discounted := subtotal * discount_multiplier in
        (discounted, discount_multiplier, subtotal - discounted)
    end in
  let rounded_total := round_nearest_50 final_total in
  Ok (mkPricingCalculation booth_tier booth_price add_on_keys add_ons_total
        subtotal discount_key discount_multiplier discount_amount
        final_total rounded_total).

End PricingEngine.

(** ** Python string operations used by the matcher *)

Module PyStr.

(** [str.isspace] on the ASCII range. *)
Definition isspace (c : ascii) : bool :=
  let n := N_of_ascii c in
  ((9 <=? n) && (n <=? 13) || (28 <=? n) && (n <=? 32))%N.

Definition lower_char (c : ascii) : ascii :=
  let n := N_of_ascii c in
  if ((65 <=? n) && (n <=? 90))%N then ascii_of_N (n + 32) else c.

(** [s.lower()] *)
Fixpoint lower (s : string) : string :=
  match s with
  | EmptyString => EmptyString
  | String c s' => String (lower_char c) (lower s')
  end.

(** [s.lstrip()] *)
Fixpoint lstrip (s : string) : string :=
  match s with
  | EmptyString => EmptyString
  | String c s' => if isspace c then lstrip s' else s
  end.

(** [s.rstrip()] *)
Fixpoint rstrip (s : string) : string :=
  match s with
  | EmptyString => EmptyString
  | String c s' =>
      match rstrip s' with
      | EmptyString => if isspace c then EmptyString else String c EmptyString
      | r => String c r
      end
  end.

(** [s.strip()] *)
Definition strip (s : string) : string := rstrip (lstrip s).

(** Truth value of a [str]: non-empty. *)
Definition truthy (s : string) : bool :=
  match s with
  | EmptyString => false
  | String _ _ => true
  end.

(** [s.split()]: the maximal runs of non-space characters; [cur] is the
    run being read. *)
Fixpoint split_from (cur : string) (s : string) : list string :=
  match s with
  | EmptyString => if truthy cur then [cur] else []
  | String c s' =>
      if isspace c then
        (if truthy cur then cur :: split_from EmptyString s'
         else split_from EmptyString s')
      else split_from (cur ++ String c EmptyString) s'
  end.

Definition split (s : string) : list string := split_from EmptyString s.

(** [sep.join(words)] *)
Fixpoint join (sep : string) (words : list string) : string :=
  match words with
  | [] => EmptyString
  | [w] => w
  | w :: rest => w ++ sep ++ join sep rest
  end.

(** [needle in hay] *)
Fixpoint contains (needle hay : string) : bool :=
  String.prefix needle hay ||
  match hay with
  | EmptyString => false
  | String _ hay' => contains needle hay'
  end.

(** [s.replace(old, new)] for a non-empty [old]: the occurrences of [old]
    are replaced left to right without overlap; [skip] counts the
    characters of an occurrence still to pass over. *)
Fixpoint replace_from (old new : string) (skip : nat) (s : string) : string :=
  match s with
  | EmptyString => EmptyString
  | String c s' =>
      match skip with
      | S k => replace_from old new k s'
      | O =>
          if String.prefix old s
          then new ++ replace_from old new (String.length old - 1) s'
          else String c (replace_from old new 0 s')
      end
  end.

(** With an empty [old], Python puts [new] before every character and
    at the end. *)
Fixpoint intersperse (new : string) (s : string) : string :=
  match s with
  | EmptyString => new
  | String c s' => new ++ String c (intersperse new s')
  end.

Definition replace (old new s : string) : string :=
  if truthy old then replace_from old new 0 s else intersperse new s.

(** The en dash U+2013 and the em dash U+2014. *)
Definition en_dash : string := "–".
Definition em_dash : string := "—".

End PyStr.

(** ** config/events.py *)

Module Events.

Record Event : Type := mkEvent {
  meeting_name : string;
  meeting_date_long : string;
  venue : string;
  city_state : string;
  default_tier : string;
  expected_attendance : option Z
}.

Definition EVENTS_2025 : list Event := [
  mkEvent "2025 Astera Cancer Care Annual Retreat"
    "September 27, 2025"
    "Ocean Place Resort and Spa" "Long Branch, NJ" "standard_1d" None;
  mkEvent "2025 Cancer Updates GU and Lung, Memphis, TN"
    "September 30, 2025"
    "Hilton Memphis" "Memphis, TN" "standard_1d" None;
  mkEvent "2025 West Oncology APP Dinner"
    "October 9, 2025"
    "Hilton Memphis" "Memphis, TN" "standard_1d" None;
  mkEvent "2025 Empower (Patient Meeting)"
    "October 11, 2025"
    "Farmer's Table" "Boca Raton, FL" "standard_1d" None;
  mkEvent "2025 Northwell Health Second Annual Liver Cancer Symposium"
    "October 17, 2025"
    "The Garden City Hotel" "Garden City, NY" "standard_1d" None;
  mkEvent "2025 Cancer Updates GI and Breast, Boston, MA"
    "October 30, 2025"
    "Battery Wharf Hotel Boston Waterfront" "Boston, MA" "standard_1d" None;
  mkEvent "2025 ESMO USA West"
    "November 1–2, 2025"
    "The Antlers" "Colorado Springs, CO" "standard_2d" None;
  mkEvent "2025 ESMO USA East"
    "November 1–2, 2025"
    "The Ritz-Carlton Orlando" "Orlando, FL" "standard_2d" None;
  mkEvent "2025 Northwell Health Multidisciplinary Head and Neck Cancer Symposium"
    "November 1, 2025"
    "The Garden City Hotel" "Garden City, NY" "standard_1d" None;
  mkEvent "2025 Cancer Updates Heme and GU, Denver, CO"
    "December 4, 2025"
    "Denver Marriott Westminster" "Denver, CO" "standard_1d" None;
  mkEvent "2025 Northwell Best of Practice Impacting Science"
    "December 5, 2025"
    "The Garden City Hotel" "Garden City, NY" "standard_1d" None;
  mkEvent "2025 Oncology Update Conference presented by High Plains Oncology Professionals-HPOP"
    "December 6, 2025"
    "Fort Collins Marriott" "Fort Collins, CO" "standard_1d" None;
  mkEvent "2025 (Northwell) 2nd Annual New York Pancreatic Cancer Consortium"
    "December 12, 2025"
    "Martinique New York on Broadway" "Manhattan, NY" "platinum" None
].

Definition EVENTS_2026 : list Event := [
  mkEvent "2026 Best of Breast Conference"
    "January 17-18, 2026"
    "Beach House Ft. Lauderdale" "Fort Lauderdale, FL" "best_of" (Some 50%Z);
  mkEvent "2026 Cancer Updates GI and Breast, Princeton, NJ"
    "January 22, 2026"
    "Princeton Marriott at Forrestal" "Princeton, NJ" "standard_1d" (Some 30%Z);
  mkEvent "2026 Northwell Cancer Institute Frontiers in Cancer Scientific Symposium"
    "January 28, 2026"
    "Carnegie Hall" "Manhattan, NYC" "standard_1d" None;
  mkEvent "2026 West Oncology Conference"
    "January 31-February 1, 2026"
    "Hilton Memphis" "Memphis, TN" "standard_2d" (Some 50%Z);
  mkEvent "2026 Best of Hematology Conference"
    "February 7-8, 2026"
    "The Hythe" "Vail, CO" "best_of" (Some 30%Z);
  mkEvent "2026 ASCO Direct GI"
    "February 7-8, 2026"
    "The Rittenhouse" "Philadelphia, PA" "standard_2d" (Some 40%Z);
  mkEvent "2026 University of Kansas Cancer Center Breast Cancer Year in Review"
    "February 21, 2026"
    "Sheraton Overland Park Hotel at the Convention Center" "Kansas City, MO" "standard_1d" (Some 75%Z);
  mkEvent "2026 Cancer Updates GI and Breast, Dallas, TX"
    "February 26, 2026"
    "The Highland Dallas" "Dallas, TX" "standard_1d" (Some 30%Z);
  mkEvent "2026 Cancer Updates GI and Breast, Nashville, TN"
    "March 5, 2026"
    "Loews Vanderbilt Hotel" "Nashville, TN" "standard_1d" (Some 30%Z);
  mkEvent "2026 Cancer Updates GI and Lung, Denver, CO"
    "March 12, 2026"
    "Denver Marriott Westminster" "Denver, CO" "standard_1d" (Some 30%Z);
  mkEvent "2026 ASCO Direct GU"
    "March 14-15, 2026"
    "The Hyatt" "Boston, MA" "standard_2d" (Some 40%Z);
  mkEvent "2026 Cancer Updates GI and Breast, Houston"
    "April 9, 2026"
    "The Blossom Hotel Houston" "Houston, TX" "standard_1d" (Some 30%Z);
  mkEvent "2026 Oncology Clinical Updates - Review and Renew Sedona"
    "April 11-12, 2026"
    "Hilton Sedona Resort at Bell Rock" "Sedona, AZ" "standard_2d" (Some 30%Z);
  mkEvent "ESMO USA in Focus 2026: Lung Cancer and Sarcomas - With John Trent and Ravi Salgia"
    "April 25, 2026"
    "Minneapolis Marriott City Center" "Minneapolis, MN" "standard_1d" (Some 30%Z);
  mkEvent "2026 Cancer Updates Breast and Lung, Kansas City"
    "May 14, 2026"
    "Crossroads Hotel Kansas City" "Kansas City, MO" "standard_1d" (Some 30%Z);
  mkEvent "ESMO in Focus 2026: Breast - EAST - With Reshma Mahtani and Kevin Kalinsky"
    "May 16, 2026"
    "Baltimore, MD" "Baltimore, MD" "standard_1d" None;
  mkEvent "ESMO in Focus 2026: Breast - WEST - With Hope Rugo and Sarah Tolaney"
    "May 16, 2026"
    "Salt Lake City, UT" "Salt Lake City, UT" "standard_1d" None;
  mkEvent "2026 ASCO Direct Puerto Rico"
    "June 13-14, 2026"
    "Hyatt Regency Grand Reserve" "San Juan, PR" "standard_2d" (Some 60%Z);
  mkEvent "2026 ASCO Direct Austin"
    "June 13-14, 2026"
    "W Austin" "Austin, TX" "standard_2d" (Some 60%Z);
  mkEvent "2026 ASCO Direct Los Angeles"
    "June 13-14, 2026"
    "Le Meridien" "Los Angeles, CA" "standard_2d" (Some 50%Z);
  mkEvent "2026 ASCO Direct Hawaii"
    "June 27-28, 2026"
    "Sheraton Waikiki Beach Resort" "Honolulu, HI" "standard_2d" (Some 100%Z);
  mkEvent "2026 ASCO Direct Washington DC"
    "June 27-28, 2026"
    "Four Seasons Hotel Washington" "Washington DC" "standard_2d" (Some 60%Z);
  mkEvent "2026 ASCO Direct Denver"
    "June 27-28, 2026"
    "Denver Marriott Westminster" "Denver, CO" "standard_2d" (Some 60%Z);
  mkEvent "2026 Cancer Updates Heme and Breast, Michigan"
    "July 9, 2026"
    "The Vanguard Ann Arbor, Autograph Collection" "Ann Arbor, MI" "standard_1d" (Some 30%Z);
  mkEvent "2026 ASCO Direct New Orleans"
    "July 10-11, 2026"
    "Hyatt Regency NOLA" "New Orleans, LA" "standard_2d" (Some 30%Z);
  mkEvent "2026 ASCO Direct Charlotte"
    "July 18-19, 2026"
    "Grand Bohemian" "Charlotte, NC" "standard_2d" (Some 60%Z);
  mkEvent "2026 ASCO Direct Philadelphia"
    "July 18-19, 2026"
    "Rittenhouse" "Philadelphia, PA" "standard_2d" (Some 60%Z);
  mkEvent "2026 ASCO Direct Anchorage"
    "July 18-19, 2026"
    "Anchorage Marriott Downtown" "Anchorage, AK" "standard_2d" (Some 30%Z);
  mkEvent "2026 ASCO Direct Las Vegas"
    "July 25-26, 2026"
    "Westin Lake Las Vegas" "Henderson/Las Vegas, NV" "standard_2d" (Some 60%Z);
  mkEvent "2026 ASCO Direct Indianapolis"
    "July 25-26, 2026"
    "Indianapolis Marriott Downtown" "Indianapolis, IN" "standard_2d" (Some 50%Z);
  mkEvent "2026 ASCO Direct Minneapolis"
    "August 1-2, 2026"
    "Four Seasons Minneapolis" "Minneapolis, MN" "standard_2d" (Some 50%Z);
  mkEvent "2026 ASCO Direct Maine"
    "August 1-2, 2026"
    "TBD" "Portland, ME" "standard_2d" (Some 50%Z);
  mkEvent "2026 ASCO Direct Boston"
    "August 8-9, 2026"
    "Ritz Carlton Boston" "Boston, MA" "standard_2d" (Some 50%Z);
  mkEvent "2026 ASCO Direct Seattle"
    "August 8-9, 2026"
    "Hilton Motif Seattle" "Seattle, WA" "standard_2d" (Some 50%Z);
  mkEvent "2026 ASCO Direct Memphis"
    "August 8-9, 2026"
    "Hilton Memphis" "Memphis, TN" "standard_2d" (Some 60%Z);
  mkEvent "2026 Cancer Update GU and Lung, Princeton, NJ"
    "August 13, 2026"
    "Princeton Marriott at Forrestal" "Princeton, NJ" "standard_1d" (Some 30%Z);
  mkEvent "2026 Oncology Clinical Updates - Review and Renew Martha's Vineyard"
    "August 15-16, 2026"
    "Martha's Vineyard, MA" "Martha's Vineyard, MA" "standard_2d" None;
  mkEvent "2026 Cancer Updates GU and Heme, Houston, TX"
    "September 10, 2026"
    "The Blossom Hotel Houston" "Houston, TX" "standard_1d" (Some 30%Z);
  mkEvent "2026 MDONS Conference"
    "September 18, 2026"
    "The Westin Westminster" "Denver, CO" "standard_1d" (Some 200%Z);
  mkEvent "2026 Cancer Updates Lung and Breast, Dallas, TX"
    "September 24, 2026"
    "The Beeman Hotel" "Dallas, TX" "standard_1d" (Some 30%Z);
  mkEvent "2026 Cancer Updates GU and Lung, Philadelphia, PA"
    "September 24, 2026"
    "Hilton Penn's Landing" "Philadelphia, PA" "standard_1d" (Some 30%Z);
  mkEvent "2026 Astera Cancer Care Annual Retreat"
    "September 26, 2026"
    "Ocean Place Resort and Spa" "Long Branch, NJ" "standard_1d" None;
  mkEvent "2026 Pathways Conference"
    "September 25-26, 2026"
    "Hotel Zaza Houston" "Houston, TX" "standard_2d" None;
  mkEvent "2026 Cancer Updates GI and Breast, Boston, MA"
    "October 1, 2026"
    "Battery Wharf Hotel Boston Waterfront" "Boston, MA" "standard_1d" (Some 30%Z);
  mkEvent "2026 West Oncology APP Dinner"
    "October 8, 2026"
    "Hilton Memphis" "Memphis, TN" "standard_1d" (Some 30%Z);
  mkEvent "2026 Virtual West Oncology APP"
    "October 9, 2026"
    "Virtual" "Virtual" "standard_1d" None;
  mkEvent "2026 Empower (Patient Meeting)"
    "October 10, 2026"
    "Boca Raton, FL" "Boca Raton, FL" "standard_1d" None;
  mkEvent "2026 Empower GI Conference"
    "November 7, 2026"
    "Washington DC" "Washington DC" "standard_1d" None;
  mkEvent "2026 ESMO USA West"
    "November 14-15, 2026"
    "Colorado Springs, CO" "Colorado Springs, CO" "standard_2d" None;
  mkEvent "2026 ESMO USA East"
    "November 14-15, 2026"
    "Orlando, FL" "Orlando, FL" "standard_2d" None;
  mkEvent "2026 Multidisciplinary Head and Neck Cancer Symposium"
    "November 14, 2026"
    "Garden City, NY" "Garden City, NY" "standard_1d" None
].

Definition ALL_EVENTS : list Event := EVENTS_2025 ++ EVENTS_2026.

Definition get_all_events : list Event := ALL_EVENTS.

End Events.

(** ** services/event_matcher.py *)

Module EventMatcher.

Import PyStr Events.

(** The matcher object: [self.events]. *)
Record EventMatcher : Type := mkEventMatcher {
  events : list Event
}.

(** [EventMatcher()] *)
Definition __init__ : EventMatcher := mkEventMatcher get_all_events.

(** The test of stages 1 and 2: [a in b or b in a]. *)
Definition either_contains (a b : string) : bool :=
  contains a b || contains b a.

Definition _exact_partial_match (self : EventMatcher) (event_name : string) : option Event :=
  let event_name_lower := lower event_name in
  find (fun event =>
          let system_name_lower := lower (meeting_name event) in
          either_contains event_name_lower system_name_lower)
       (events self).

Definition _normalize_name (name : string) : string :=
  let name := lower name in
  let name := replace em_dash "-" (replace en_dash "-" name) in
  let name := replace "best of asco" "asco direct" name in
  let name := replace "best" "" (replace "best of" "" name) in
  let name := join " " (split name) in
  name.

Definition _normalized_match (self : EventMatcher) (event_name : string) : option Event :=
  let normalized_input := _normalize_name event_name in
  find (fun event =>
          let normalized_system := _normalize_name (meeting_name event) in
          either_contains normalized_input normalized_system)
       (events self).

(** [set(s.lower().split())] *)
Definition word_set (s : string) : gset string := list_to_set (split (lower s)).

(** [len(input_words & system_words)] for one catalog event. *)
Definition common_count (input_words : gset string) (event : Event) : nat :=
  size (input_words ∩ word_set (meeting_name event)).

(** One turn of the loop of [_keyword_match] on the pair
    [(best_match, max_common)]. *)
Definition keyword_step (input_words : gset string)
    (st : option Event * nat) (event : Event) : option Event * nat :=
  let '(best_match, max_common) := st in
  let common_count := common_count input_words event in
  if (3 <=? common_count)%nat && (max_common <? common_count)%nat
  then (Some event, common_count)
  else (best_match, max_common).

Definition _keyword_match (self : EventMatcher) (event_name : string) : option Event :=
  let input_words := word_set event_name in
  fst (fold_left (keyword_step input_words) (events self) (None, 0%nat)).

(** [not event_name or not event_name.strip()] *)
Definition is_blank (event_name : string) : bool :=
  negb (truthy event_name) || negb (truthy (strip event_name)).

Definition match_event (self : EventMatcher) (event_name : string) : option Event :=
  if is_blank event_name then None
  else
    match _exact_partial_match self event_name with
    | Some matched => Some matched
    | None =>
        match _normalized_match self event_name with
        | Some matched => Some matched
        | None =>
            match _keyword_match self event_name with
            | Some matched => Some matched
            | None => None
            end
        end
    end.

Definition match_with_confidence (self : EventMatcher) (event_name : string)
    : option Event * string :=
  if is_blank event_name then (None, "none")
  else
    match _exact_partial_match self event_name with
    | Some matched => (Some matched, "exact")
    | None =>
        match _normalized_match self event_name with
        | Some matched => (Some matched, "normalized")
        | None =>
            match _keyword_match self event_name with
            | Some matched => (Some matched, "keyword")
            | None => (None, "none")
            end
        end
    end.

(** The module-level instance and its convenience functions. *)
Definition event_matcher : EventMatcher := __init__.

Definition match_event_name (event_name : string) : option Event :=
  match_event event_matcher event_name.

Definition match_event_with_confidence (event_name : string) : option Event * string :=
  match_with_confidence event_matcher event_name.

End EventMatcher.

(** ** The rounding helper on IEEE binary64 values

    [float] is the kernel's binary64 type with round-to-nearest-even
    arithmetic, which is Python's [float]. *)

Module Binary64.

Local Open Scope Z_scope.

(** The integer nearest to [m / d] for [d > 0], ties to the even one. *)
Definition div_half_even (m d : Z) : Z :=
  let q := m / d in
  match 2 * (m mod d) ?= d with
  | Lt => q
  | Gt => q + 1
  | Eq => if Z.even q then q else q + 1
  end.

(** [round(x)]: raises on an infinity and on [nan]. *)
Definition py_round (x : float) : PyResult Z :=
  match Prim2SF x with
  | S754_zero _ => Ok 0
  | S754_finite s m e =>
      let n := if 0 <=? e then Z.pos m * 2 ^ e
               else div_half_even (Z.pos m) (2 ^ (- e)) in
      Ok (if s then - n else n)
  | S754_infinity _ => Raise OverflowError
  | S754_nan => Raise ValueError
  end.

(** The conversion of an [int] operand to [float]. *)
Definition float_of_int (n : Z) : PyResult float :=
  match binary_normalize prec emax n 0 false with
  | S754_infinity _ => Raise OverflowError
  | sf => Ok (SF2Prim sf)
  end.

(** [round(amount / 50.0) * 50.0] *)
Definition round_nearest_50 (amount : float) : PyResult float :=
  let* n := py_round (amount / 50)%float in
  let* f := float_of_int n in
  Ok (f * 50)%float.

End Binary64.

(** ** Reference notions used to state the properties *)

Import Pricing Models PricingEngine PyStr Events EventMatcher.

Module Spec.

Local Open Scope Qc_scope.

(** What one key of [add_on_keys] adds to the total: its price in the
    table, or 0 when the table has no such key. *)
Definition key_price (pricing : gmap string AddOnEntry) (key : string) : amount :=
  match pricing !! key with
  | Some entry => price entry
  | None => 0
  end.

(** The sum of the contributions of a list of keys, one per occurrence. *)
Definition keys_total (pricing : gmap string AddOnEntry) (keys : list string) : amount :=
  foldr (fun key s => key_price pricing key + s) 0 keys.

(** The price a booth tier contributes: 0 for the sentinel and for a key
    the booth table lacks. *)
Definition booth_price_of (t : PricingTables) (booth : string) : amount :=
  if String.eqb booth "(no booth)" then 0 else dict_get (get_booth_prices t) booth 0.


(** The keys of the discount table. *)
Definition discount_keys : list string :=
  ["none"; "minus_10"; "minus_15"; "minus_20"; "custom"].

(** A field of a result as a fraction in lowest terms, [None] when the
    call raised. *)
Definition observe (field : PricingCalculation -> amount)
    (res : PyResult PricingCalculation) : option Q :=
  match res with
  | Ok r => Some (this (field r))
  | Raise _ => None
  end.

(** Absolute value of an amount. *)
Definition Qcabs (x : amount) : amount := if decide (0 <= x) then x else - x.

(** [a] occurs in [b] as a run of consecutive characters. *)
Definition is_substring (a b : string) : Prop :=
  exists u v : string, b = (u ++ a ++ v)%string.



(** [e] is the first element of [l] that satisfies [P]. *)
Definition first_such {A : Type} (P : A -> Prop) (l : list A) (e : A) : Prop :=
  exists pre post : list A,
    l = (pre ++ e :: post)%list /\ P e /\ (forall e', In e' pre -> ~ P e').

(** The number of distinct words a query shares with an event name. *)
Definition shared_words (query : string) (event : Event) : nat :=
  size (word_set query ∩ word_set (meeting_name event)).


(** Every character of [s] is white space. *)
Definition all_space (s : string) : Prop :=
  forall c : ascii, In c (list_ascii_of_string s) -> isspace c = true.

End Spec.

Import Spec.

(** ** config/events.py: the year of an event and the catalog queries *)

Module EventQueries.

Local Open Scope string_scope.

(** [Event.get_year] *)
Definition get_year (self : Event) : Z :=
  if contains "2026" (meeting_name self) then 2026
  else if contains "2025" (meeting_name self) then 2025
  else 2025.

(** [[event for event in ALL_EVENTS if event.get_year() == year]] *)
Definition get_events_by_year (year : Z) : list Event :=
  List.filter (fun event => (get_year event =? year)%Z) ALL_EVENTS.

Definition find_event_by_name (name : string) : option Event :=
  List.find (fun event => String.eqb (meeting_name event) name) ALL_EVENTS.

(** The text [search_events] looks into for one event. *)
Definition searchable (event : Event) : string :=
  (((lower (meeting_name event) ++ " ") ++
    lower (city_state event)) ++ " ") ++
  lower (venue event).

Definition search_events (query : string) : list Event :=
  let query_lower := lower query in
  List.filter (fun event => contains query_lower (searchable event)) ALL_EVENTS.

End EventQueries.

(** ** services/event_matcher.py: similarity scores *)

Module Similarity.

Local Open Scope Qc_scope.

Definition of_nat (n : nat) : amount := of_Z (Z.of_nat n).









End Similarity.

(** ** core/pricing_calc.py: multi-meeting pricing *)

Module MultiMeeting.

Import EventQueries.
Local Open Scope Qc_scope.

(** One element of [events_configs]: a dict that may hold the keys
    ["event"], ["booth_tier"] and ["add_on_keys"]. *)
Record EventConfig : Type := mkEventConfig {
  config_event : option Event;
  config_booth_tier : option string;
  config_add_on_keys : option (list string)
}.

(** [config["event"]] *)
Definition config_getitem_event (config : EventConfig) : PyResult Event :=
  match config_event config with
  | Some event => Ok event
  | None => Raise (KeyError "event")
  end.

(** [config.get("booth_tier", "(no booth)")] *)
Definition config_get_booth_tier (config : EventConfig) : string :=
  match config_booth_tier config with
  | Some tier => tier
  | None => "(no booth)"
  end.

(** [config.get("add_on_keys", [])] *)
Definition config_get_add_on_keys (config : EventConfig) : list string :=
  match config_add_on_keys config with
  | Some keys => keys
  | None => []
  end.

(** One element of ["events_breakdown"]. *)
Record EventBreakdown : Type := mkEventBreakdown {
  event_name : string;
  booth_tier : string;
  booth_cost : amount;
  add_ons : list string;
  addon_cost : amount;
  event_total : amount
}.

(** The dict [calculate_multi_meeting_pricing] returns. *)
Record MultiMeetingPricing : Type := mkMultiMeetingPricing {
  total_booth_cost : amount;
  total_addon_cost : amount;
  final_total : amount;
  events_breakdown : list EventBreakdown
}.

(** The body of the loop for one config: the costs of the event and its
    breakdown entry. *)
Definition price_config (t : PricingTables) (booth_prices : gmap string amount)
    (config : EventConfig) : PyResult EventBreakdown :=
  let* event := config_getitem_event config in
  let booth_tier := config_get_booth_tier config in
  let add_on_keys := config_get_add_on_keys config in
  let event_year := get_year event in
  let add_ons_pricing := get_add_ons_pricing t event_year in
  let booth_cost :=
    if negb (String.eqb booth_tier "(no booth)")
    then dict_get booth_prices booth_tier 0
    else 0 in
  let* addon_cost := sum_add_on_prices add_ons_pricing add_on_keys 0 in
  Ok (mkEventBreakdown (meeting_name event) booth_tier booth_cost add_on_keys
        addon_cost (booth_cost + addon_cost)).

(** The loop over [events_configs], on the running totals and the
    breakdown built so far. *)
Fixpoint pricing_loop (t : PricingTables) (booth_prices : gmap string amount)
    (configs : list EventConfig)
    (st : amount * amount * list EventBreakdown)
    : PyResult (amount * amount * list EventBreakdown) :=
  match configs with
  | [] => Ok st
  | config :: rest =>
      let '(total_booth_cost, total_addon_cost, events_breakdown) := st in
      let* entry := price_config t booth_prices config in
      pricing_loop t booth_prices rest
        (total_booth_cost + booth_cost entry,
         total_addon_cost + addon_cost entry,
         (events_breakdown ++ [entry])%list)
  end.

Definition calculate_multi_meeting_pricing (t : PricingTables)
    (events_configs : list EventConfig) : PyResult MultiMeetingPricing :=
  let booth_prices := get_booth_prices t in
  let* st := pricing_loop t booth_prices events_configs (0, 0, []) in
  let '(total_booth_cost, total_addon_cost, events_breakdown) := st in
  let final_total := total_booth_cost + total_addon_cost in
  Ok (mkMultiMeetingPricing total_booth_cost total_addon_cost final_total
        events_breakdown).

(** The sum of a list of amounts. *)
Definition sum_amounts (l : list amount) : amount := foldr Qcplus 0 l.

End MultiMeeting.

(** ** core/models.py and services/multi_meeting.py: packages *)

Module Package.

Import EventQueries.
Local Open Scope Qc_scope.

(** One element of [package.events]: the fields of the event with the
    two costs added. *)
Record PackageEvent : Type := mkPackageEvent {
  event : Event;
  booth_price : amount;
  addon_cost : amount
}.

Record MultiMeetingPackage : Type := mkMultiMeetingPackage {
  company_name : string;
  events : list PackageEvent;
  total_booth_cost : amount;
  total_addon_cost : amount;
  final_total : amount;
  document_type : string;
  additional_info : option string;
  company_address : option string
}.

(** [MultiMeetingPackage.add_event] *)
Definition add_event (self : MultiMeetingPackage) (event : Event)
    (booth_price addon_cost : amount) : MultiMeetingPackage :=
  let events := (events self ++ [mkPackageEvent event booth_price addon_cost])%list in
  let total_booth_cost := total_booth_cost self + booth_price in
  let total_addon_cost := total_addon_cost self + addon_cost in
  mkMultiMeetingPackage (company_name self) events total_booth_cost
    total_addon_cost (total_booth_cost + total_addon_cost)
    (document_type self) (additional_info self) (company_address self).

Definition get_event_count (self : MultiMeetingPackage) : nat :=
  length (events self).

(** The loop of [MultiMeetingService.create_package]. *)
Fixpoint create_package_loop (t : PricingTables)
    (configs : list MultiMeeting.EventConfig) (package : MultiMeetingPackage)
    : PyResult MultiMeetingPackage :=
  match configs with
  | [] => Ok package
  | config :: rest =>
      let* event := MultiMeeting.config_getitem_event config in
      let booth_tier := MultiMeeting.config_get_booth_tier config in
      let add_on_keys := MultiMeeting.config_get_add_on_keys config in
      let* pricing :=
        calculate_pricing t booth_tier add_on_keys (get_year event) "none" None in
      create_package_loop t rest
        (add_event package event (Models.booth_price pricing)
           (Models.add_ons_total pricing))
  end.

Definition create_package (t : PricingTables) (company_name : string)
    (events_configs : list MultiMeeting.EventConfig) (document_type : string)
    (additional_info : string) (company_address : string)
    : PyResult MultiMeetingPackage :=
  let package :=
    mkMultiMeetingPackage company_name [] 0 0 0 document_type
      (Some additional_info) (Some company_address) in
  create_package_loop t events_configs package.

(** The name and the two costs of a package entry. *)
Definition package_row (pe : PackageEvent) : string * amount * amount :=
  (meeting_name (event pe), booth_price pe, addon_cost pe).

(** The name and the two costs of a breakdown entry. *)
Definition breakdown_row (entry : MultiMeeting.EventBreakdown)
    : string * amount * amount :=
  (MultiMeeting.event_name entry, MultiMeeting.booth_cost entry,
   MultiMeeting.addon_cost entry).

End Package.

(** ** config/pricing.py and core/pricing_calc.py: display helpers *)

Module Display.

Local Open Scope string_scope.

(** The decimal digits of a natural number, as [str] prints an [int]. *)
Definition digits (n : N) : string :=
  DecimalString.NilEmpty.string_of_uint (N.to_uint n).

(** The [","] option of the format: a comma before every group of three
    digits counted from the right. *)
Fixpoint group_digits (s : string) : string :=
  match s with
  | EmptyString => EmptyString
  | String c s' =>
      String c
        (if (0 <? String.length s')%nat && (String.length s' mod 3 =? 0)%nat
         then "," ++ group_digits s'
         else group_digits s')
  end.

(** The two digits of a number below 100. *)
Definition two_digits (n : N) : string :=
  digits (n / 10) ++ digits (n mod 10).

(** The number of hundredths the format [.2f] prints for an amount:
    the nearest one, ties to the even one. *)
Definition cents (amount : Qc) : N :=
  Z.to_N (py_round (Qcabs amount * of_Z 100)%Qc).

(** The sign the format prints: ["-"] for a negative amount. *)
Definition sign (amount : Qc) : string :=
  if decide (amount < 0)%Qc then "-" else "".

(** [f"${amount:,.2f}"] *)
Definition currency (amount : Qc) : string :=
  "$" ++ sign amount ++ group_digits (digits (cents amount / 100)) ++ "." ++
  two_digits (cents amount mod 100).

(** The dict [format_pricing_display] returns, one field per key:
    ["Booth"], ["Add-ons"], ["Subtotal"], ["Discount"],
    ["Total (before rounding)"], ["Final Total (rounded)"]. *)
Record PricingDisplay : Type := mkPricingDisplay {
  Booth : string;
  Add_ons : string;
  Subtotal : string;
  Discount : string;
  Total_before_rounding : string;
  Final_Total_rounded : string
}.

Definition format_pricing_display (calculation : PricingCalculation) : PricingDisplay :=
  mkPricingDisplay
    (currency (booth_price calculation))
    (currency (add_ons_total calculation))
    (currency (subtotal calculation))
    (if decide (0 < discount_amount calculation)%Qc
     then "-" ++ currency (discount_amount calculation)
     else "None")
    (currency (final_total calculation))
    (currency (rounded_total calculation)).

(** One element of the list [get_add_ons_breakdown] returns. *)
Record AddOnLine : Type := mkAddOnLine {
  key : string;
  label : string;
  price : Qc;
  price_formatted : string
}.

Fixpoint breakdown_loop (add_ons_pricing : gmap string AddOnEntry)
    (add_on_keys : list string) (breakdown : list AddOnLine)
    : PyResult (list AddOnLine) :=
  match add_on_keys with
  | [] => Ok breakdown
  | key :: rest =>
      if dict_contains add_ons_pricing key then
        let* addon := dict_getitem add_ons_pricing key in
        breakdown_loop add_ons_pricing rest
          (breakdown ++
           [mkAddOnLine key (Pricing.label addon) (Pricing.price addon)
              (currency (Pricing.price addon))])%list
      else breakdown_loop add_ons_pricing rest breakdown
  end.

Definition get_add_ons_breakdown (t : PricingTables) (add_on_keys : list string)
    (event_year : Z) : PyResult (list AddOnLine) :=
  let add_ons_pricing := get_add_ons_pricing t event_year in
  breakdown_loop add_ons_pricing add_on_keys [].

End Display.

(** ** services/multi_meeting.py: the summary of a package *)

Module PackageSummary.

Local Open Scope Qc_scope.



End PackageSummary.

(** ** config/pricing.py and app.py: the add-on check boxes *)

Module AddOnSelection.

Local Open Scope string_scope.

(** [ADD_ON_CATEGORIES], in the order of the dict. *)
Definition ADD_ON_CATEGORIES : list (string * list string) :=
  [ ("📱 Digital Marketing", ["platform_banner"; "email_banner"; "registration_banner"]);
    ("📄 Print Materials", ["program_ad_full"]);
    ("🔌 On-Site Services", ["charging_stations"; "wifi_sponsorship"]);
    ("🤝 Networking", ["networking_reception"; "networking_activity"]);
    ("🎓 Educational Programs", ["advisory_board"; "non_cme_session"]) ].

(** The loop of the single-event form that builds [selected_addons]:
    one check box per key of a category that the year's table holds;
    [checkbox label key] is the state of the check box with that label
    and widget key. *)
Definition selected_addons (checkbox : string -> string -> bool)
    (add_ons_pricing : gmap string AddOnEntry) : list string :=
  flat_map
    (fun '(category, addon_keys) =>
       flat_map
         (fun key =>
            match add_ons_pricing !! key with
            | Some addon =>
                if checkbox
                     (Pricing.label addon ++ " - " ++
                      Display.currency (Pricing.price addon))
                     ("addon_" ++ key)
                then [key] else []
            | None => []
            end)
         addon_keys)
    ADD_ON_CATEGORIES.

End AddOnSelection.

(** ** services/multi_meeting.py: the document payload of a package *)

Module PackagePayload.

Local Open Scope string_scope.
Local Open Scope Qc_scope.

(** The exception the body can raise: a name that is not bound. *)
Inductive PayloadError : Type :=
| NameError (name : string).

(** The dict [_create_package_payload] returns, one field per key. *)
Record Payload : Type := mkPayload {
  company_name : string;
  company_address : option string;
  meeting_name : string;
  meeting_date_long : string;
  venue : string;
  city_state : string;
  booth_selected : bool;
  booth_tier : string;
  booth_price : amount;
  add_on_keys : list string;
  add_ons_total : amount;
  subtotal : amount;
  discount_applied : amount;
  final_total : amount;
  amount_currency : string;
  additional_info : string;
  document_type : string;
  event_year : Z
}.

(** [package.additional_info or self._generate_event_list_text(...)]:
    the method is a [staticmethod], so [self] is not bound and its
    evaluation raises [NameError]; it is evaluated only when
    [package.additional_info] is [None] or empty. *)
Definition additional_info_or_event_list (package : Package.MultiMeetingPackage)
    : PayloadError + string :=
  match Package.additional_info package with
  | Some info => if truthy info then inr info else inl (NameError "self")
  | None => inl (NameError "self")
  end.

Definition _create_package_payload (package : Package.MultiMeetingPackage)
    : PayloadError + Payload :=
  let event_list :=
    map (fun event =>
           ("• " ++ Events.meeting_name (Package.event event) ++ " - " ++
            Events.meeting_date_long (Package.event event))%string)
        (Package.events package) in
  match additional_info_or_event_list package with
  | inl e => inl e
  | inr info =>
      inr (mkPayload
             (Package.company_name package)
             (Package.company_address package)
             ("Multi-Meeting Package (" ++
              Display.digits (N.of_nat (length (Package.events package))) ++
              " Events)")%string
             "Various Dates (2025-2026)"
             "Multiple Venues"
             "Various Locations"
             (bool_decide (0 < Package.total_booth_cost package))
             "Multi-Meeting Package"
             (Package.total_booth_cost package)
             []
             (Package.total_addon_cost package)
             (Package.final_total package)
             0
             (Package.final_total package)
             (Display.currency (Package.final_total package))
             info
             (Package.document_type package)
             2025%Z)
  end.

End PackagePayload.

(** ** Reference notions for the further properties *)

Module Spec2.

Local Open Scope Qc_scope.


(** A decimal digit. *)
Definition is_digit (c : ascii) : bool :=
  let n := N_of_ascii c in ((48 <=? n) && (n <=? 57))%N.

(** Every character of [s] is a decimal digit. *)
Definition all_digits (s : string) : Prop :=
  forall c : ascii, In c (list_ascii_of_string s) -> is_digit c = true.



(** The check box of a key, [false] for a key the table lacks. *)
Definition box_checked (checkbox : string -> string -> bool)
    (add_ons_pricing : gmap string AddOnEntry) (key : string) : bool :=
  match add_ons_pricing !! key with
  | Some addon =>
      checkbox (Pricing.label addon ++ " - " ++ Display.currency (Pricing.price addon))%string
        ("addon_" ++ key)%string
  | None => false
  end.

End Spec2.

(** ** Pricing engine: properties *)

Section PricingProperties.

Local Open Scope Qc_scope.

Variable t : PricingTables.

Lemma sum_add_on_prices_spec (pricing : gmap string AddOnEntry)
    (keys : list string) (acc : amount) :
  sum_add_on_prices pricing keys acc = Ok (acc + keys_total pricing keys).
Proof.
  revert acc. induction keys as [|key rest IH]; intros acc; simpl.
  - f_equal. ring.
  - unfold dict_contains, dict_getitem, key_price.
    destruct (pricing !! key) as [entry|]; simpl; rewrite IH; f_equal; ring.
Qed.



(** The result of [calculate_pricing], field by field. *)
Lemma calculate_pricing_unfold (booth : string) (keys : list string) (year : Z)
    (dk : string) (ct : option amount) :
  exists r : PricingCalculation,
    calculate_pricing t booth keys year dk ct = Ok r /\
    booth_tier r = booth /\
    add_on_keys r = keys /\
    discount_key r = dk /\
    booth_price r = booth_price_of t booth /\
    add_ons_total r = keys_total (get_add_ons_pricing t year) keys /\
    subtotal r = booth_price r + add_ons_total r /\
    rounded_total r = round_nearest_50 (final_total r) /\
    discount_amount r = subtotal r - final_total r /\
    match String.eqb dk "custom", ct with
    | true, Some custom => final_total r = custom /\ discount_multiplier r = 0
    | _, _ =>
        discount_multiplier r = or_one (get_discount_multiplier dk) /\
        final_total r = subtotal r * discount_multiplier r
    end.
Proof.
  unfold calculate_pricing. rewrite sum_add_on_prices_spec. simpl py_bind.
  fold (booth_price_of t booth).
  replace (0 + keys_total (get_add_ons_pricing t year) keys)
    with (keys_total (get_add_ons_pricing t year) keys) by ring.
  destruct (String.eqb dk "custom"), ct as [custom|];
    (eexists; split; [reflexivity|]; simpl; repeat split; reflexivity).
Qed.

Lemma or_one_nonzero (x : amount) : x <> 0 -> or_one (Some x) = x.
Proof.
  intros Hx. unfold or_one. destruct (decide (x = 0)); [contradiction | reflexivity].
Qed.

Lemma Q2Qc_nonzero (q : Q) : ~ (q == 0)%Q -> Q2Qc q <> 0.
Proof.
  intros Hq H. apply Hq. apply (f_equal this) in H. simpl in H.
  rewrite <- (Qred_correct q). rewrite H. reflexivity.
Qed.


Lemma unknown_discount_multiplier (dk : string) :
  ~ In dk discount_keys -> get_discount_multiplier dk = None.
Proof.
  intros Hdk. unfold get_discount_multiplier.
  replace (DISCOUNT_OPTIONS !! dk) with (@None DiscountOption); [reflexivity|].
  symmetry. apply not_elem_of_list_to_map_1. simpl.
  intros Hin. apply Hdk. apply list_elem_of_In in Hin. exact Hin.
Qed.




(** C4: with ["custom"] and no custom total, or with a discount key the
    discount table lacks, the multiplier is 1: [final_total] is the
    subtotal, [discount_amount] is 0, and the call returns a result. *)
Theorem C4_missing_discount_defaults_to_one (booth : string) (keys : list string)
    (year : Z) (dk : string) (ct : option amount) :
  (dk = "custom" /\ ct = None) \/ ~ In dk discount_keys ->
  exists r : PricingCalculation,
    calculate_pricing t booth keys year dk ct = Ok r /\
    discount_multiplier r = 1 /\
    final_total r = subtotal r /\
    discount_amount r = 0.
Proof.
  intros Hcase.
  destruct (calculate_pricing_unfold booth keys year dk ct)
    as (r & E & _ & _ & _ & _ & _ & Hs & Hr & Hd & Hf).
  assert (Hstd : discount_multiplier r = 1 /\
                 final_total r = subtotal r * discount_multiplier r).
  { destruct Hcase as [[-> ->]|Hdk].
    - simpl in Hf. exact Hf.
    - assert (Hne : String.eqb dk "custom" = false).
      { apply String.eqb_neq. intros ->. apply Hdk. simpl. auto 10. }
      rewrite Hne, (unknown_discount_multiplier dk Hdk) in Hf. exact Hf. }
  destruct Hstd as [Hm Hfin]. rewrite Hm in Hfin.
  assert (Hfin' : final_total r = subtotal r) by (rewrite Hfin; ring).
  exists r. repeat split; try assumption.
  rewrite Hd, Hfin'. ring.
Qed.


End PricingProperties.

(** ** Rounding to the nearest 50: properties *)

Section Rounding.

Local Open Scope Qc_scope.










End Rounding.

(** ** Event matcher: substring test and first match *)

Section MatcherLemmas.

Local Open Scope string_scope.

Lemma append_nil_l (s : string) : "" ++ s = s.
Proof. reflexivity. Qed.

Lemma append_cons (c : ascii) (a b : string) : String c a ++ b = String c (a ++ b).
Proof. reflexivity. Qed.

Lemma prefix_spec (a b : string) :
  String.prefix a b = true <-> exists v : string, b = a ++ v.
Proof.
  revert b. induction a as [|c a IH]; intros b.
  - split; [intros _; exists b; reflexivity | intros _; destruct b; reflexivity].
  - destruct b as [|d b]; simpl.
    + split; [discriminate | intros [v Hv]; rewrite append_cons in Hv; discriminate].
    + destruct (ascii_dec c d) as [->|Hne].
      * rewrite IH. split; intros [v Hv]; exists v; rewrite append_cons in *; congruence.
      * split; [discriminate | intros [v Hv]; rewrite append_cons in Hv; congruence].
Qed.

Lemma contains_spec (a b : string) :
  contains a b = true <-> is_substring a b.
Proof.
  unfold is_substring. induction b as [|c b IH].
  - cbn [contains]. rewrite orb_false_r, prefix_spec. split.
    + intros [v Hv]. exists "", v. exact Hv.
    + intros (u & v & Hb). destruct u; [|rewrite append_cons in Hb; discriminate].
      exists v. exact Hb.
  - cbn [contains]. rewrite orb_true_iff, prefix_spec, IH. split.
    + intros [[v Hv]|(u & v & Hb)].
      * exists "", v. exact Hv.
      * exists (String c u), v. rewrite append_cons. congruence.
    + intros (u & v & Hb). destruct u as [|d u].
      * left. exists v. exact Hb.
      * right. exists u, v. rewrite append_cons in Hb. congruence.
Qed.



Lemma find_none_iff {A : Type} (f : A -> bool) (P : A -> Prop)
    (Hf : forall x, f x = true <-> P x) (l : list A) :
  find f l = None <-> forall e, In e l -> ~ P e.
Proof.
  induction l as [|x l IH]; simpl.
  - split; [intros _ e [] | reflexivity].
  - destruct (f x) eqn:Hx.
    + split; [discriminate|]. intros H. exfalso.
      apply (H x); [left; reflexivity | apply Hf; exact Hx].
    + rewrite IH. split.
      * intros H e [<-|Hin]; [rewrite <- Hf, Hx; discriminate | apply H; exact Hin].
      * intros H e Hin. apply H. right. exact Hin.
Qed.









End MatcherLemmas.

(** ** Event matcher: the keyword loop *)

Section KeywordLoop.

Variable query : string.

Lemma keyword_loop_invariant (l : list Event) :
  let st := fold_left (keyword_step (word_set query)) l (None, 0%nat) in
  (fst st = None /\ snd st = 0%nat /\
   forall e, In e l -> (shared_words query e < 3)%nat) \/
  (exists e, fst st = Some e /\ (3 <= snd st)%nat /\
     first_such (fun e' => shared_words query e' = snd st) l e /\
     forall e', In e' l -> (shared_words query e' <= snd st)%nat).
Proof.
  induction l as [|x l IH] using rev_ind; cbv zeta.
  - left. simpl. repeat split. intros e [].
  - rewrite fold_left_app. cbn [fold_left].
    cbv zeta in IH.
    destruct (fold_left (keyword_step (word_set query)) l (None, 0%nat))
      as [best maxc] eqn:Hst.
    assert (Hstep : keyword_step (word_set query) (best, maxc) x =
                    if (3 <=? shared_words query x)%nat && (maxc <? shared_words query x)%nat
                    then (Some x, shared_words query x) else (best, maxc))
      by reflexivity.
    rewrite Hstep. clear Hstep.
    cbn [fst snd] in IH.
    destruct (Nat.leb_spec 3 (shared_words query x)) as [H3|H3];
      destruct (Nat.ltb_spec maxc (shared_words query x)) as [Hm|Hm];
      cbn [andb fst snd].
    + right. exists x. repeat split; [exact H3| |].
      * exists l, []. repeat split. intros e' Hin Heq.
        destruct IH as [(_ & _ & Hall)|(e & _ & _ & _ & Hall)];
          specialize (Hall e' Hin); lia.
      * intros e' Hin. apply in_app_or in Hin as [Hin|[<-|[]]]; [|lia].
        destruct IH as [(_ & _ & Hall)|(e & _ & _ & _ & Hall)];
          specialize (Hall e' Hin); lia.
    + right. destruct IH as [(_ & H0 & _)|(e & Hb & Hge & Hfirst & Hall)]; [lia|].
      exists e. repeat split; [exact Hb | exact Hge | |].
      * destruct Hfirst as (pre & post & -> & Heq & Hpre).
        exists pre, (post ++ [x])%list. rewrite <- app_assoc. repeat split; assumption.
      * intros e' Hin. apply in_app_or in Hin as [Hin|[<-|[]]]; [apply Hall; exact Hin | lia].
    + destruct IH as [(Hb & H0 & Hall)|(e & _ & Hge & _ & _)]; [|lia].
      left. repeat split; [exact Hb | exact H0 |].
      intros e' Hin. apply in_app_or in Hin as [Hin|[<-|[]]]; [apply Hall; exact Hin | lia].
    + destruct IH as [(Hb & H0 & Hall)|(e & Hb & Hge & Hfirst & Hall)].
      * left. repeat split; [exact Hb | exact H0 |].
        intros e' Hin. apply in_app_or in Hin as [Hin|[<-|[]]]; [apply Hall; exact Hin | lia].
      * right. exists e. repeat split; [exact Hb | exact Hge | |].
        -- destruct Hfirst as (pre & post & -> & Heq & Hpre).
           exists pre, (post ++ [x])%list. rewrite <- app_assoc. repeat split; assumption.
        -- intros e' Hin. apply in_app_or in Hin as [Hin|[<-|[]]]; [apply Hall; exact Hin | lia].
Qed.



Lemma first_such_In {A : Type} (P : A -> Prop) (l : list A) (e : A) :
  first_such P l e -> In e l /\ P e.
Proof.
  intros (pre & post & -> & HP & _). split; [|exact HP].
  apply in_or_app. right. left. reflexivity.
Qed.


End KeywordLoop.

(** ** Event matcher: properties *)

Section MatcherProperties.

Local Open Scope string_scope.





End MatcherProperties.

(** ** Counterexample and instances *)

Section Instances.

Local Open Scope string_scope.
Local Open Scope Qc_scope.




Lemma C4_witness :
  (("minus_50" = "custom" /\ @None amount = None) \/ ~ In "minus_50" discount_keys) /\
  exists r : PricingCalculation,
    calculate_pricing fallback_tables "platinum" ["wifi_sponsorship"] 2025
      "minus_50" None = Ok r /\
    discount_multiplier r = 1 /\
    final_total r = subtotal r /\
    discount_amount r = 0.
Proof.
  assert (H : ("minus_50" = "custom" /\ @None amount = None) \/
              ~ In "minus_50" discount_keys).
  { right. simpl. intros [H|[H|[H|[H|[H|[]]]]]]; discriminate H. }
  split; [exact H|].
  exact (C4_missing_discount_defaults_to_one fallback_tables "platinum"
           ["wifi_sponsorship"] 2025 "minus_50" None H).
Defined.



(** The cases of [tests/test_pricing.py]. *)
Example test_basic_booth_pricing :
  observe subtotal
    (calculate_pricing fallback_tables "standard_1d" [] 2025 "none" None)
  = Some (5000 # 1)%Q /\
  observe final_total
    (calculate_pricing fallback_tables "standard_1d" [] 2025 "none" None)
  = Some (5000 # 1)%Q.
Proof. split; vm_compute; reflexivity. Qed.

Example test_booth_with_addons :
  observe add_ons_total
    (calculate_pricing fallback_tables "standard_2d"
       ["program_ad_full"; "charging_stations"] 2025 "none" None)
  = Some (4000 # 1)%Q /\
  observe subtotal
    (calculate_pricing fallback_tables "standard_2d"
       ["program_ad_full"; "charging_stations"] 2025 "none" None)
  = Some (11500 # 1)%Q.
Proof. split; vm_compute; reflexivity. Qed.

Example test_10_percent_discount :
  observe final_total
    (calculate_pricing fallback_tables "platinum" [] 2025 "minus_10" None)
  = Some (9000 # 1)%Q.
Proof. vm_compute. reflexivity. Qed.

Example test_custom_total_override :
  observe subtotal
    (calculate_pricing fallback_tables "premier" ["non_cme_session"] 2025
       "custom" (Some (of_Z 50000)))
  = Some (65000 # 1)%Q /\
  observe final_total
    (calculate_pricing fallback_tables "premier" ["non_cme_session"] 2025
       "custom" (Some (of_Z 50000)))
  = Some (50000 # 1)%Q.
Proof. split; vm_compute; reflexivity. Qed.

Example test_2026_pricing_difference :
  observe add_ons_total
    (calculate_pricing fallback_tables "(no booth)" ["charging_stations"] 2025
       "none" None)
  = Some (2000 # 1)%Q /\
  observe add_ons_total
    (calculate_pricing fallback_tables "(no booth)" ["charging_stations"] 2026
       "none" None)
  = Some (3000 # 1)%Q.
Proof. split; vm_compute; reflexivity. Qed.

(** A custom total above the subtotal: the discount amount is negative. *)
Example custom_total_above_subtotal :
  observe discount_amount
    (calculate_pricing fallback_tables "standard_1d" [] 2025 "custom"
       (Some (of_Z 6000)))
  = Some (-1000 # 1)%Q.
Proof. vm_compute. reflexivity. Qed.

(** The rounding cases of the test suite on binary64 values. *)
Example test_rounding_to_nearest_50_binary64 :
  Binary64.round_nearest_50 7537.5%float = Ok 7550%float /\
  Binary64.round_nearest_50 7525%float = Ok 7500%float /\
  Binary64.round_nearest_50 7575%float = Ok 7600%float /\
  Binary64.round_nearest_50 10000%float = Ok 10000%float.
Proof. repeat split; vm_compute; reflexivity. Qed.

(** Stage 1 takes the first entry in stored order: ["Denver"] is found
    in a 2025 event although a later entry also contains it. *)
Example first_match_in_stored_order :
  exists e1 e2 : Event,
    meeting_name e1 = "2025 Cancer Updates Heme and GU, Denver, CO" /\
    meeting_name e2 = "2026 ASCO Direct Denver" /\
    In e2 (events event_matcher) /\
    contains (lower "Denver") (lower (meeting_name e2)) = true /\
    match_event_with_confidence "Denver" = (Some e1, "exact").
Proof.
  eexists.
  exists (mkEvent "2026 ASCO Direct Denver" "June 27-28, 2026"
            "Denver Marriott Westminster" "Denver, CO" "standard_2d" (Some 60%Z)).
  split; [|split; [|split; [|split]]].
  5: vm_compute; reflexivity.
  - reflexivity.
  - reflexivity.
  - unfold event_matcher, __init__, get_all_events, ALL_EVENTS, EVENTS_2026.
    cbn [events]. apply in_or_app. right.
    repeat (first [left; reflexivity | right]).
  - vm_compute. reflexivity.
Qed.

(** The cases of [tests/test_event_matcher.py]. *)
Example test_event_matcher_cases :
  (exists e, match_event_name "2026 ASCO Direct Denver" = Some e /\
             meeting_name e = "2026 ASCO Direct Denver") /\
  (exists e, match_event_name "ASCO Direct Denver" = Some e /\
             meeting_name e = "2026 ASCO Direct Denver") /\
  (exists e, match_event_name "2026 Denver June ASCO" = Some e /\
             meeting_name e = "2026 ASCO Direct Denver") /\
  match_event_name "NonExistent Event 2099" = None /\
  match_event_with_confidence "2026 ASCO Direct Denver"
  = (match_event_name "2026 ASCO Direct Denver", "exact").
Proof.
  repeat split; try (eexists; split; vm_compute; reflexivity);
    vm_compute; reflexivity.
Qed.

End Instances.

(** ** Catalog queries: properties *)

Section CatalogQueries.

Import EventQueries.
Local Open Scope string_scope.

Lemma append_assoc (a b c : string) : (a ++ b) ++ c = a ++ (b ++ c).
Proof.
  induction a as [|x a IH].
  - reflexivity.
  - rewrite !append_cons, IH. reflexivity.
Qed.

Lemma append_nil_r (a : string) : a ++ "" = a.
Proof.
  induction a as [|x a IH]; [reflexivity|]. rewrite append_cons, IH. reflexivity.
Qed.

Lemma is_substring_refl (a : string) : is_substring a a.
Proof. exists "", "". rewrite append_nil_l, append_nil_r. reflexivity. Qed.

Lemma is_substring_app_l (a b c : string) : is_substring a b -> is_substring a (b ++ c).
Proof.
  intros (u & v & ->). exists u, (v ++ c). rewrite !append_assoc. reflexivity.
Qed.

Lemma is_substring_app_r (a b c : string) : is_substring a c -> is_substring a (b ++ c).
Proof.
  intros (u & v & ->). exists (b ++ u), v. rewrite !append_assoc. reflexivity.
Qed.

Lemma is_substring_empty (b : string) : is_substring "" b.
Proof. exists "", b. reflexivity. Qed.

Lemma get_year_cases (e : Event) : get_year e = 2026%Z \/ get_year e = 2025%Z.
Proof.
  unfold get_year.
  destruct (contains "2026" (meeting_name e)); [left; reflexivity|].
  destruct (contains "2025" (meeting_name e)); right; reflexivity.
Qed.

(** The year of an event is 2026 when its name contains ["2026"] and 2025
    otherwise (whether or not the name contains ["2025"]); so an event is
    priced from the 2026 add-on table exactly when its name contains
    ["2026"]. *)
Theorem get_year_selects_add_on_table (t : PricingTables) (e : Event) :
  (get_year e = 2026%Z \/ get_year e = 2025%Z) /\
  (get_year e = 2026%Z <-> is_substring "2026" (meeting_name e)) /\
  (is_substring "2026" (meeting_name e) ->
   get_add_ons_pricing t (get_year e) = get_add_ons_2026 t) /\
  (~ is_substring "2026" (meeting_name e) ->
   get_add_ons_pricing t (get_year e) = get_add_ons_2025 t).
Proof.
  unfold get_year.
  destruct (contains "2026" (meeting_name e)) eqn:H26.
  - apply contains_spec in H26.
    repeat split; auto; intros; try reflexivity; contradiction.
  - assert (Hn : ~ is_substring "2026" (meeting_name e)).
    { intros H. apply contains_spec in H. congruence. }
    assert (Hy : (if contains "2025" (meeting_name e) then 2025%Z else 2025%Z) = 2025%Z)
      by (destruct (contains "2025" (meeting_name e)); reflexivity).
    rewrite Hy. repeat split; auto; intros; try reflexivity;
      try discriminate; contradiction.
Qed.

Lemma filter_all_false {A : Type} (f : A -> bool) (l : list A) :
  (forall x, In x l -> f x = false) -> List.filter f l = [].
Proof.
  induction l as [|x l IH]; simpl; intros H; [reflexivity|].
  rewrite (H x) by (left; reflexivity). apply IH. intros y Hy. apply H. right. exact Hy.
Qed.

(** [get_events_by_year] gives back the two yearly lists of the catalog:
    [EVENTS_2025] for 2025, [EVENTS_2026] for 2026, and no event for any
    other year; an event is in the answer exactly when it is in the
    catalog and has that year. *)
Theorem get_events_by_year_partitions_catalog :
  get_events_by_year 2025 = EVENTS_2025 /\
  get_events_by_year 2026 = EVENTS_2026 /\
  (forall year : Z, year <> 2025%Z -> year <> 2026%Z -> get_events_by_year year = []) /\
  (forall (year : Z) (e : Event),
      In e (get_events_by_year year) <-> In e ALL_EVENTS /\ get_year e = year).
Proof.
  split; [vm_compute; reflexivity|]. split; [vm_compute; reflexivity|]. split.
  - intros year H25 H26. unfold get_events_by_year.
    apply filter_all_false. intros e _.
    destruct (get_year_cases e) as [Hy|Hy];
      rewrite Hy; apply Z.eqb_neq; congruence.
  - intros year e. unfold get_events_by_year. rewrite filter_In, Z.eqb_eq. reflexivity.
Qed.

Lemma find_unique_key {A : Type} (key : A -> string) (l : list A) (e : A) :
  List.NoDup (map key l) -> In e l ->
  List.find (fun x => String.eqb (key x) (key e)) l = Some e.
Proof.
  induction l as [|x l IH]; simpl; intros Hnd Hin; [contradiction|].
  inversion Hnd as [|? ? Hnotin Hnd']; subst.
  destruct Hin as [->|Hin].
  - rewrite String.eqb_refl. reflexivity.
  - destruct (String.eqb_spec (key x) (key e)) as [Heq|Hne].
    + exfalso. apply Hnotin. rewrite Heq. apply in_map. exact Hin.
    + apply IH; assumption.
Qed.

Lemma catalog_names_unique : List.NoDup (map meeting_name ALL_EVENTS).
Proof.
  apply NoDup_ListNoDup. apply (bool_decide_unpack _). vm_compute. exact I.
Qed.

(** Looking an event of the catalog up by its own name returns that very
    event (no two catalog events share a name); an answer of
    [find_event_by_name] is a catalog event with exactly the name asked
    for, and the answer is [None] exactly when no catalog event has it. *)
Theorem find_event_by_name_round_trip :
  (forall e : Event, In e ALL_EVENTS -> find_event_by_name (meeting_name e) = Some e) /\
  (forall (name : string) (e : Event),
      find_event_by_name name = Some e -> In e ALL_EVENTS /\ meeting_name e = name) /\
  (forall name : string,
      find_event_by_name name = None <->
      forall e, In e ALL_EVENTS -> meeting_name e <> name).
Proof.
  split; [|split].
  - intros e Hin. unfold find_event_by_name.
    apply (find_unique_key meeting_name ALL_EVENTS e catalog_names_unique Hin).
  - intros name e H. unfold find_event_by_name in H.
    apply find_some in H as [Hin Heq]. apply String.eqb_eq in Heq. auto.
  - intros name. unfold find_event_by_name.
    apply (find_none_iff _ (fun e => meeting_name e = name)).
    intros x. apply String.eqb_eq.
Qed.

Lemma filter_sublist {A : Type} (f : A -> bool) (l : list A) :
  sublist (List.filter f l) l.
Proof.
  induction l as [|x l IH]; simpl.
  - constructor.
  - destruct (f x); [apply sublist_skip | apply sublist_cons]; exact IH.
Qed.

Lemma filter_all_true {A : Type} (f : A -> bool) (l : list A) :
  (forall x, In x l -> f x = true) -> List.filter f l = l.
Proof.
  induction l as [|x l IH]; simpl; intros H; [reflexivity|].
  rewrite (H x) by (left; reflexivity). f_equal. apply IH.
  intros y Hy. apply H. right. exact Hy.
Qed.

(** [search_events] returns, in catalog order, exactly the catalog events
    whose lower-cased name, city and venue (joined by single spaces)
    contain the lower-cased query; the empty query returns the whole
    catalog, and a query contained in the name, the city or the venue of
    an event, whatever the case, finds that event. *)
Theorem search_events_finds_substrings (query : string) :
  sublist (search_events query) ALL_EVENTS /\
  (forall e, In e (search_events query) <->
             In e ALL_EVENTS /\ is_substring (lower query) (searchable e)) /\
  search_events "" = ALL_EVENTS /\
  (forall e, In e ALL_EVENTS ->
     is_substring (lower query) (lower (meeting_name e)) \/
     is_substring (lower query) (lower (city_state e)) \/
     is_substring (lower query) (lower (venue e)) ->
     In e (search_events query)).
Proof.
  assert (Hin : forall e, In e (search_events query) <->
                  In e ALL_EVENTS /\ is_substring (lower query) (searchable e)).
  { intros e. unfold search_events. cbv zeta.
    rewrite filter_In, contains_spec. reflexivity. }
  split; [apply filter_sublist|]. split; [exact Hin|]. split.
  - unfold search_events. cbv zeta. apply filter_all_true.
    intros e _. apply contains_spec. apply is_substring_empty.
  - intros e He Hsub. apply Hin. split; [exact He|]. unfold searchable.
    destruct Hsub as [H|[H|H]].
    + do 4 apply is_substring_app_l. exact H.
    + do 2 apply is_substring_app_l. apply is_substring_app_r. exact H.
    + apply is_substring_app_r. exact H.
Qed.

End CatalogQueries.

(** ** Event matcher: further properties *)

Section MatcherExtras.

Local Open Scope string_scope.

Lemma keyword_match_In (self : EventMatcher) (query : string) (e : Event) :
  _keyword_match self query = Some e -> In e (events self).
Proof.
  unfold _keyword_match. cbv zeta. intros H.
  pose proof (keyword_loop_invariant query (events self)) as Hinv. cbv zeta in Hinv.
  destruct Hinv as [(Hnone & _)|(e' & Hb & _ & Hfirst & _)].
  - rewrite Hnone in H. discriminate.
  - rewrite Hb in H. injection H as <-.
    apply (first_such_In _ _ _ Hfirst).
Qed.

(** Whatever the catalog and the query, [match_event] is the first
    component of [match_with_confidence]; a returned event belongs to
    the catalog and comes with one of the labels ["exact"],
    ["normalized"], ["keyword"]; no event comes with ["none"], and only
    then. *)
Theorem match_result_is_well_formed (self : EventMatcher) (query : string) :
  match_event self query = fst (match_with_confidence self query) /\
  (forall e c, match_with_confidence self query = (Some e, c) ->
     In e (events self) /\ (c = "exact" \/ c = "normalized" \/ c = "keyword")) /\
  (forall c, match_with_confidence self query = (None, c) -> c = "none") /\
  (events self = [] -> match_with_confidence self query = (None, "none")).
Proof.
  unfold match_event, match_with_confidence.
  destruct (is_blank query).
  { repeat split; try discriminate; intros; congruence. }
  destruct (_exact_partial_match self query) as [e1|] eqn:H1.
  { apply find_some in H1 as [Hin _].
    split; [reflexivity|]. split; [|split].
    - intros e c [= <- <-]. auto.
    - discriminate.
    - intros Hnil. rewrite Hnil in Hin. contradiction. }
  destruct (_normalized_match self query) as [e2|] eqn:H2.
  { apply find_some in H2 as [Hin _].
    split; [reflexivity|]. split; [|split].
    - intros e c [= <- <-]. auto.
    - discriminate.
    - intros Hnil. rewrite Hnil in Hin. contradiction. }
  destruct (_keyword_match self query) as [e3|] eqn:H3.
  { apply keyword_match_In in H3.
    split; [reflexivity|]. split; [|split].
    - intros e c [= <- <-]. auto.
    - discriminate.
    - intros Hnil. rewrite Hnil in H3. contradiction. }
  repeat split; try discriminate; intros; congruence.
Qed.

Lemma isspace_lower_char (c : ascii) : isspace (lower_char c) = isspace c.
Proof.
  destruct c as [[] [] [] [] [] [] [] []]; reflexivity.
Qed.

Lemma lower_char_idem (c : ascii) : lower_char (lower_char c) = lower_char c.
Proof.
  destruct c as [[] [] [] [] [] [] [] []]; reflexivity.
Qed.

Lemma lower_idem (s : string) : lower (lower s) = lower s.
Proof.
  induction s as [|c s IH]; simpl; [reflexivity|].
  rewrite lower_char_idem, IH. reflexivity.
Qed.

Lemma lstrip_lower (s : string) : lstrip (lower s) = lower (lstrip s).
Proof.
  induction s as [|c s IH]; simpl; [reflexivity|].
  rewrite isspace_lower_char. destruct (isspace c); [exact IH | reflexivity].
Qed.

Lemma rstrip_lower (s : string) : rstrip (lower s) = lower (rstrip s).
Proof.
  induction s as [|c s IH]; simpl; [reflexivity|].
  rewrite IH, isspace_lower_char.
  destruct (rstrip s); simpl; [destruct (isspace c)|]; reflexivity.
Qed.

Lemma truthy_lower (s : string) : truthy (lower s) = truthy s.
Proof. destruct s; reflexivity. Qed.

Lemma is_blank_lower (s : string) : is_blank (lower s) = is_blank s.
Proof.
  unfold is_blank, strip.
  rewrite lstrip_lower, rstrip_lower, !truthy_lower. reflexivity.
Qed.

(** Matching ignores the (ASCII) case of the query: two queries with the
    same lower-cased form get the same answer from
    [match_with_confidence] and from [match_event]; in particular a
    query and its lower-cased form do. *)
Theorem match_ignores_case (self : EventMatcher) (q1 q2 : string) :
  lower q1 = lower q2 ->
  match_with_confidence self q1 = match_with_confidence self q2 /\
  match_event self q1 = match_event self q2 /\
  match_with_confidence self (lower q1) = match_with_confidence self q1.
Proof.
  assert (Hgen : forall a b, lower a = lower b ->
            match_with_confidence self a = match_with_confidence self b /\
            match_event self a = match_event self b).
  { intros a b Hab.
    assert (Hb : is_blank a = is_blank b)
      by (rewrite <- (is_blank_lower a), <- (is_blank_lower b), Hab; reflexivity).
    assert (H1 : _exact_partial_match self a = _exact_partial_match self b)
      by (unfold _exact_partial_match; rewrite Hab; reflexivity).
    assert (H2 : _normalized_match self a = _normalized_match self b)
      by (unfold _normalized_match, _normalize_name; rewrite Hab; reflexivity).
    assert (H3 : _keyword_match self a = _keyword_match self b)
      by (unfold _keyword_match, word_set; rewrite Hab; reflexivity).
    unfold match_with_confidence, match_event.
    rewrite Hb, H1, H2, H3. split; reflexivity. }
  intros H12. destruct (Hgen q1 q2 H12) as [Ha Hb].
  split; [exact Ha|]. split; [exact Hb|].
  apply (Hgen (lower q1) q1). apply lower_idem.
Qed.

Lemma lstrip_empty_all_space (s : string) : lstrip s = "" -> all_space s.
Proof.
  unfold all_space. induction s as [|c s IH]; simpl; intros H d Hd; [contradiction|].
  destruct (isspace c) eqn:Hc; [|discriminate].
  destruct Hd as [<-|Hd]; [exact Hc | apply IH; assumption].
Qed.




(** Every event of the catalog is found under its own name: the matcher
    returns that very event with label ["exact"]. *)
Theorem catalog_names_match_themselves (e : Event) :
  In e ALL_EVENTS ->
  match_event_with_confidence (meeting_name e) = (Some e, "exact").
Proof.
  revert e. apply List.Forall_forall.
  unfold ALL_EVENTS, EVENTS_2025, EVENTS_2026. cbn [app].
  repeat (constructor; [vm_compute; reflexivity|]).
  constructor.
Qed.

End MatcherExtras.

(** ** Similarity scores: properties *)

Section SimilarityProperties.

Import Similarity.
Local Open Scope Qc_scope.





























End SimilarityProperties.

(** ** Multi-meeting pricing and packages: properties *)

Section MultiMeetingProperties.

Import EventQueries.
Local Open Scope string_scope.
Local Open Scope Qc_scope.

Variable t : PricingTables.

(** What the loop body computes for a config that holds an event. *)
Lemma price_config_value (config : MultiMeeting.EventConfig) (e : Event) :
  MultiMeeting.config_event config = Some e ->
  MultiMeeting.price_config t (get_booth_prices t) config =
  Ok (MultiMeeting.mkEventBreakdown (meeting_name e)
        (MultiMeeting.config_get_booth_tier config)
        (booth_price_of t (MultiMeeting.config_get_booth_tier config))
        (MultiMeeting.config_get_add_on_keys config)
        (keys_total (get_add_ons_pricing t (get_year e))
           (MultiMeeting.config_get_add_on_keys config))
        (booth_price_of t (MultiMeeting.config_get_booth_tier config) +
         keys_total (get_add_ons_pricing t (get_year e))
           (MultiMeeting.config_get_add_on_keys config))).
Proof.
  intros He. unfold MultiMeeting.price_config, MultiMeeting.config_getitem_event.
  rewrite He. simpl py_bind. rewrite sum_add_on_prices_spec. simpl py_bind.
  rewrite Qcplus_0_l. unfold booth_price_of.
  destruct (String.eqb (MultiMeeting.config_get_booth_tier config) "(no booth)");
    reflexivity.
Qed.

Lemma price_config_missing (config : MultiMeeting.EventConfig) :
  MultiMeeting.config_event config = None ->
  MultiMeeting.price_config t (get_booth_prices t) config = Raise (KeyError "event").
Proof.
  intros He. unfold MultiMeeting.price_config, MultiMeeting.config_getitem_event.
  rewrite He. reflexivity.
Qed.

Lemma price_config_cases (config : MultiMeeting.EventConfig) :
  (MultiMeeting.config_event config = None /\
   MultiMeeting.price_config t (get_booth_prices t) config = Raise (KeyError "event")) \/
  (exists e entry, MultiMeeting.config_event config = Some e /\
     MultiMeeting.price_config t (get_booth_prices t) config = Ok entry /\
     MultiMeeting.event_name entry = meeting_name e /\
     MultiMeeting.booth_cost entry =
       booth_price_of t (MultiMeeting.config_get_booth_tier config) /\
     MultiMeeting.addon_cost entry =
       keys_total (get_add_ons_pricing t (get_year e))
         (MultiMeeting.config_get_add_on_keys config) /\
     MultiMeeting.event_total entry =
       MultiMeeting.booth_cost entry + MultiMeeting.addon_cost entry).
Proof.
  destruct (MultiMeeting.config_event config) as [e|] eqn:He.
  - right. exists e. eexists. split; [reflexivity|].
    split; [apply price_config_value; exact He|]. repeat split.
  - left. split; [reflexivity | apply price_config_missing; exact He].
Qed.

Lemma pricing_loop_raises (configs : list MultiMeeting.EventConfig)
    (st : amount * amount * list MultiMeeting.EventBreakdown) :
  (exists config, In config configs /\ MultiMeeting.config_event config = None) ->
  MultiMeeting.pricing_loop t (get_booth_prices t) configs st = Raise (KeyError "event").
Proof.
  revert st. induction configs as [|config rest IH]; intros [[tb ta] bd] (c & Hin & Hc).
  - contradiction.
  - simpl. destruct (price_config_cases config)
      as [[_ Hraise]|(e & entry & He & Hok & _)].
    + rewrite Hraise. reflexivity.
    + rewrite Hok. simpl py_bind. apply IH.
      destruct Hin as [<-|Hin]; [congruence|]. exists c. auto.
Qed.

Lemma pricing_loop_ok (configs : list MultiMeeting.EventConfig)
    (tb ta : amount) (bd : list MultiMeeting.EventBreakdown) :
  (forall config, In config configs -> MultiMeeting.config_event config <> None) ->
  exists entries : list MultiMeeting.EventBreakdown,
    MultiMeeting.pricing_loop t (get_booth_prices t) configs (tb, ta, bd) =
      Ok (tb + MultiMeeting.sum_amounts (map MultiMeeting.booth_cost entries),
          ta + MultiMeeting.sum_amounts (map MultiMeeting.addon_cost entries),
          (bd ++ entries)%list) /\
    Forall2 (fun config entry =>
               MultiMeeting.price_config t (get_booth_prices t) config = Ok entry)
            configs entries.
Proof.
  revert tb ta bd. induction configs as [|config rest IH]; intros tb ta bd Hall.
  - exists []. simpl. rewrite !Qcplus_0_r, app_nil_r. split; [reflexivity | constructor].
  - destruct (price_config_cases config)
      as [[Hnone _]|(e & entry & He & Hok & _)].
    + exfalso. apply (Hall config); [left; reflexivity | exact Hnone].
    + destruct (IH (tb + MultiMeeting.booth_cost entry)
                   (ta + MultiMeeting.addon_cost entry) (bd ++ [entry])%list)
        as (entries & Hloop & Hf2).
      { intros c Hc. apply Hall. right. exact Hc. }
      exists (entry :: entries). split; [|constructor; assumption].
      simpl. rewrite Hok. simpl py_bind. rewrite Hloop.
      unfold MultiMeeting.sum_amounts. simpl.
      rewrite !Qcplus_assoc, <- app_assoc. reflexivity.
Qed.



(** Each event of a multi-meeting pricing is priced like a call of
    [calculate_pricing] on its own with discount ["none"] and the year
    of the event: the entry's costs are that call's [booth_price] and
    [add_ons_total], and its [event_total] is that call's [final_total]
    before rounding. *)
Theorem multi_meeting_prices_events_separately
    (configs : list MultiMeeting.EventConfig) (r : MultiMeeting.MultiMeetingPricing) :
  MultiMeeting.calculate_multi_meeting_pricing t configs = Ok r ->
  Forall2 (fun config entry =>
             exists (e : Event) (pricing : PricingCalculation),
               MultiMeeting.config_event config = Some e /\
               calculate_pricing t (MultiMeeting.config_get_booth_tier config)
                 (MultiMeeting.config_get_add_on_keys config) (get_year e)
                 "none" None = Ok pricing /\
               MultiMeeting.event_name entry = meeting_name e /\
               MultiMeeting.booth_cost entry = booth_price pricing /\
               MultiMeeting.addon_cost entry = add_ons_total pricing /\
               MultiMeeting.event_total entry = final_total pricing)
          configs (MultiMeeting.events_breakdown r).
Proof.
  unfold MultiMeeting.calculate_multi_meeting_pricing. cbv zeta. intros Hcalc.
  assert (Hall : forall config, In config configs ->
                   MultiMeeting.config_event config <> None).
  { intros config Hin Hnone.
    rewrite (pricing_loop_raises configs _ (ex_intro _ config (conj Hin Hnone))) in Hcalc.
    discriminate. }
  destruct (pricing_loop_ok configs 0 0 [] Hall) as (entries & Hloop & Hf2).
  rewrite Hloop in Hcalc. simpl in Hcalc. injection Hcalc as <-. simpl.
  clear Hloop Hall. induction Hf2 as [|config entry cs es Hok _ IH]; constructor;
    [|exact IH].
  destruct (MultiMeeting.config_event config) as [e|] eqn:He.
  - rewrite (price_config_value config e He) in Hok. injection Hok as <-.
    destruct (calculate_pricing_unfold t (MultiMeeting.config_get_booth_tier config)
                (MultiMeeting.config_get_add_on_keys config) (get_year e) "none" None)
      as (pricing & E & _ & _ & _ & Hb & Ha & Hs & _ & _ & Hf).
    simpl in Hf. destruct Hf as [Hm Hfin].
    exists e, pricing. simpl. repeat split; try assumption; try congruence.
    rewrite Hfin, Hm, Hs, Hb, Ha.
    change (or_one (get_discount_multiplier "none")) with (or_one (Some (Q2Qc (100 # 100)))).
    rewrite or_one_nonzero by (apply Q2Qc_nonzero; discriminate).
    replace (Q2Qc (100 # 100)) with 1 by (apply Qc_is_canon; reflexivity).
    ring.
  - rewrite (price_config_missing config He) in Hok. discriminate.
Qed.

Lemma configs_all_or_missing (configs : list MultiMeeting.EventConfig) :
  (forall config, In config configs -> MultiMeeting.config_event config <> None) \/
  (exists config, In config configs /\ MultiMeeting.config_event config = None).
Proof.
  induction configs as [|config rest [IH|(c & Hin & Hc)]].
  - left. intros c [].
  - destruct (MultiMeeting.config_event config) as [e|] eqn:He.
    + left. intros c [<-|Hin]; [congruence | apply IH; exact Hin].
    + right. exists config. split; [left; reflexivity | exact He].
  - right. exists c. split; [right; exact Hin | exact Hc].
Qed.

Lemma create_package_loop_raises (configs : list MultiMeeting.EventConfig)
    (p : Package.MultiMeetingPackage) :
  (exists config, In config configs /\ MultiMeeting.config_event config = None) ->
  Package.create_package_loop t configs p = Raise (KeyError "event").
Proof.
  revert p. induction configs as [|config rest IH]; intros p (c & Hin & Hc).
  - contradiction.
  - simpl. unfold MultiMeeting.config_getitem_event.
    destruct (MultiMeeting.config_event config) as [e|] eqn:He; [|reflexivity].
    simpl py_bind.
    destruct (calculate_pricing_unfold t (MultiMeeting.config_get_booth_tier config)
                (MultiMeeting.config_get_add_on_keys config) (get_year e) "none" None)
      as (pricing & E & _).
    rewrite E. simpl py_bind. apply IH.
    destruct Hin as [<-|Hin]; [congruence|]. exists c. auto.
Qed.

Lemma create_package_loop_ok (configs : list MultiMeeting.EventConfig)
    (entries : list MultiMeeting.EventBreakdown) (p : Package.MultiMeetingPackage) :
  Forall2 (fun config entry =>
             MultiMeeting.price_config t (get_booth_prices t) config = Ok entry)
          configs entries ->
  exists p' : Package.MultiMeetingPackage,
    Package.create_package_loop t configs p = Ok p' /\
    Package.total_booth_cost p' =
      Package.total_booth_cost p +
      MultiMeeting.sum_amounts (map MultiMeeting.booth_cost entries) /\
    Package.total_addon_cost p' =
      Package.total_addon_cost p +
      MultiMeeting.sum_amounts (map MultiMeeting.addon_cost entries) /\
    (Package.final_total p = Package.total_booth_cost p + Package.total_addon_cost p ->
     Package.final_total p' = Package.total_booth_cost p' + Package.total_addon_cost p') /\
    map Package.package_row (Package.events p') =
      (map Package.package_row (Package.events p) ++ map Package.breakdown_row entries)%list /\
    Package.company_name p' = Package.company_name p /\
    Package.document_type p' = Package.document_type p /\
    Package.additional_info p' = Package.additional_info p /\
    Package.company_address p' = Package.company_address p.
Proof.
  intros Hf2. revert p.
  induction Hf2 as [|config entry cs es Hok _ IH]; intros p.
  - exists p. simpl. unfold MultiMeeting.sum_amounts. simpl.
    rewrite !Qcplus_0_r, app_nil_r. auto 10.
  - destruct (MultiMeeting.config_event config) as [e|] eqn:He.
    2: { rewrite (price_config_missing config He) in Hok. discriminate. }
    rewrite (price_config_value config e He) in Hok. injection Hok as <-.
    destruct (calculate_pricing_unfold t (MultiMeeting.config_get_booth_tier config)
                (MultiMeeting.config_get_add_on_keys config) (get_year e) "none" None)
      as (pricing & E & _ & _ & _ & Hb & Ha & _).
    destruct (IH (Package.add_event p e (booth_price pricing) (add_ons_total pricing)))
      as (p' & Hloop & Htb & Hta & Hinv & Hrows & Hn & Hd & Hi & Ha').
    exists p'. split.
    { simpl. unfold MultiMeeting.config_getitem_event. rewrite He. simpl py_bind.
      rewrite E. simpl py_bind. exact Hloop. }
    simpl in Htb, Hta, Hinv, Hrows, Hn, Hd, Hi, Ha'.
    unfold MultiMeeting.sum_amounts in *. simpl.
    split; [rewrite Htb, Hb; ring|]. split; [rewrite Hta, Ha; ring|].
    split; [intros _; apply Hinv; reflexivity|].
    split.
    { rewrite Hrows, map_app, <- app_assoc. simpl.
      unfold Package.package_row at 2, Package.breakdown_row at 2.
      simpl. rewrite Hb, Ha. reflexivity. }
    auto.
Qed.

(** [MultiMeetingService.create_package] and
    [calculate_multi_meeting_pricing] agree on every list of configs:
    both raise the same error when a config lacks an event, and
    otherwise the package holds one entry per config with the same
    names and costs as the breakdown, the same three totals, its
    [final_total] is [total_booth_cost + total_addon_cost], and the
    company name and document type are the ones given. *)
Theorem create_package_agrees_with_multi_meeting_pricing
    (company_name : string) (configs : list MultiMeeting.EventConfig)
    (document_type additional_info company_address : string) :
  match MultiMeeting.calculate_multi_meeting_pricing t configs,
        Package.create_package t company_name configs document_type
          additional_info company_address with
  | Ok r, Ok p =>
      Package.total_booth_cost p = MultiMeeting.total_booth_cost r /\
      Package.total_addon_cost p = MultiMeeting.total_addon_cost r /\
      Package.final_total p = MultiMeeting.final_total r /\
      Package.final_total p = Package.total_booth_cost p + Package.total_addon_cost p /\
      Package.get_event_count p = length configs /\
      map Package.package_row (Package.events p) =
        map Package.breakdown_row (MultiMeeting.events_breakdown r) /\
      Package.company_name p = company_name /\
      Package.document_type p = document_type
  | Raise e1, Raise e2 => e1 = e2
  | _, _ => False
  end.
Proof.
  unfold MultiMeeting.calculate_multi_meeting_pricing, Package.create_package.
  cbv zeta.
  destruct (configs_all_or_missing configs) as [Hall|Hmiss].
  - destruct (pricing_loop_ok configs 0 0 [] Hall) as (entries & Hloop & Hf2).
    rewrite Hloop. simpl py_bind.
    destruct (create_package_loop_ok configs entries
                (Package.mkMultiMeetingPackage company_name [] 0 0 0 document_type
                   (Some additional_info) (Some company_address)) Hf2)
      as (p' & Hp & Htb & Hta & Hinv & Hrows & Hn & Hd & _).
    rewrite Hp. simpl in *. rewrite !Qcplus_0_l in *.
    assert (Hfin : Package.final_total p' =
                   Package.total_booth_cost p' + Package.total_addon_cost p')
      by (apply Hinv; ring).
    repeat split; try assumption.
    + rewrite Hfin, Htb, Hta. reflexivity.
    + unfold Package.get_event_count.
      rewrite <- (length_map Package.package_row), Hrows, length_map.
      symmetry. apply (Forall2_length _ _ _ Hf2).
  - rewrite (pricing_loop_raises configs _ Hmiss).
    rewrite (create_package_loop_raises configs _ Hmiss). reflexivity.
Qed.

End MultiMeetingProperties.

(** ** Discounts and rounding: further properties *)

Section DiscountBounds.

Import Spec2.
Local Open Scope string_scope.
Local Open Scope Qc_scope.











End DiscountBounds.

(** ** Display helpers: properties *)

Section DisplayProperties.

Import Spec2.
Local Open Scope string_scope.





Lemma all_digits_app (a b : string) : all_digits a -> all_digits b -> all_digits (a ++ b).
Proof.
  unfold all_digits. induction a as [|d a IH]; intros Ha Hb c Hc.
  - apply Hb. exact Hc.
  - rewrite append_cons in Hc. simpl in Hc. destruct Hc as [<-|Hc].
    + apply Ha. left. reflexivity.
    + apply IH; try assumption. intros c' Hc'. apply Ha. right. exact Hc'.
Qed.



















(** The ["Discount"] line of [format_pricing_display] reads ["None"]
    exactly when the discount amount is not positive; so a custom total
    at or above the subtotal is shown with no discount, while the line
    ["Total (before rounding)"] shows the custom total itself.  A
    positive discount is shown as a minus sign before its currency
    text. *)
Theorem pricing_display_hides_non_positive_discounts (t : PricingTables)
    (booth : string) (keys : list string) (year : Z) (dk : string)
    (ct : option amount) :
  exists r : PricingCalculation,
    calculate_pricing t booth keys year dk ct = Ok r /\
    (Display.Discount (Display.format_pricing_display r) = "None" <->
     (discount_amount r <= 0)%Qc) /\
    ((0 < discount_amount r)%Qc ->
     Display.Discount (Display.format_pricing_display r) =
       "-" ++ Display.currency (discount_amount r)) /\
    (forall X : amount, dk = "custom" -> ct = Some X -> (subtotal r <= X)%Qc ->
       Display.Discount (Display.format_pricing_display r) = "None" /\
       Display.Total_before_rounding (Display.format_pricing_display r) =
         Display.currency X) /\
    Display.Final_Total_rounded (Display.format_pricing_display r) =
      Display.currency (round_nearest_50 (final_total r)).
Proof.
  destruct (calculate_pricing_unfold t booth keys year dk ct)
    as (r & E & _ & _ & _ & _ & _ & _ & Hr & Hd & Hf).
  exists r. split; [exact E|].
  assert (Hiff : Display.Discount (Display.format_pricing_display r) = "None" <->
                 (discount_amount r <= 0)%Qc).
  { unfold Display.format_pricing_display. cbn [Display.Discount].
    destruct (decide (0 < discount_amount r)%Qc) as [Hpos|Hnp].
    - split; [intros H; rewrite append_cons in H; discriminate H|].
      intros Hle. exfalso. apply (Qcle_not_lt _ _ Hle Hpos).
    - split; [intros _; apply Qcnot_lt_le; exact Hnp | reflexivity]. }
  split; [exact Hiff|]. split; [|split].
  - intros Hpos. unfold Display.format_pricing_display. cbn [Display.Discount].
    destruct (decide (0 < discount_amount r)%Qc); [reflexivity | contradiction].
  - intros X -> -> Hle. simpl in Hf. destruct Hf as [Hfin _]. split.
    + apply Hiff. rewrite Hd, Hfin.
      apply (proj2 (Qcle_minus_iff _ _)).
      replace (0 + - (subtotal r - X))%Qc with (X + - subtotal r)%Qc by ring.
      apply (proj1 (Qcle_minus_iff _ _)). exact Hle.
    + unfold Display.format_pricing_display. cbn [Display.Total_before_rounding].
      rewrite Hfin. reflexivity.
  - unfold Display.format_pricing_display. cbn [Display.Final_Total_rounded].
    rewrite Hr. reflexivity.
Qed.

Lemma breakdown_loop_spec (pricing : gmap string AddOnEntry) (keys : list string)
    (acc : list Display.AddOnLine) :
  exists lines : list Display.AddOnLine,
    Display.breakdown_loop pricing keys acc = Ok (acc ++ lines)%list /\
    map Display.key lines = List.filter (dict_contains pricing) keys /\
    Forall (fun line =>
              exists entry, pricing !! Display.key line = Some entry /\
                Display.label line = Pricing.label entry /\
                Display.price line = Pricing.price entry /\
                Display.price_formatted line = Display.currency (Pricing.price entry))
           lines /\
    MultiMeeting.sum_amounts (map Display.price lines) = keys_total pricing keys.
Proof.
  revert acc. induction keys as [|key keys IH]; intros acc.
  - exists []. simpl. rewrite app_nil_r. repeat split. constructor.
  - simpl. unfold dict_contains, dict_getitem, keys_total, key_price in *. simpl.
    destruct (pricing !! key) as [entry|] eqn:Hk.
    + simpl py_bind.
      destruct (IH (acc ++ [Display.mkAddOnLine key (Pricing.label entry)
                              (Pricing.price entry)
                              (Display.currency (Pricing.price entry))])%list)
        as (lines & Hloop & Hkeys & Hall & Hsum).
      eexists (_ :: lines). rewrite Hloop, <- app_assoc. simpl.
      split; [reflexivity|]. split; [rewrite Hkeys; reflexivity|]. split.
      * constructor; [|exact Hall]. exists entry. simpl. auto.
      * unfold MultiMeeting.sum_amounts in *. simpl. rewrite Hsum. reflexivity.
    + destruct (IH acc) as (lines & Hloop & Hkeys & Hall & Hsum).
      exists lines. rewrite Hloop. split; [reflexivity|].
      split; [exact Hkeys|]. split; [exact Hall|].
      rewrite Hsum. rewrite Qcplus_0_l. reflexivity.
Qed.

(** [get_add_ons_breakdown] never raises.  It returns one line per
    occurrence of a key the year's table holds, in the order given, the
    other keys being left out; each line carries the label and the price
    of its table entry and the currency text of that price; and the
    prices of the lines add up to the [add_ons_total] that
    [calculate_pricing] computes for the same keys and year. *)
Theorem add_ons_breakdown_adds_up_to_add_ons_total (t : PricingTables)
    (keys : list string) (year : Z) (booth dk : string) (ct : option amount) :
  exists (lines : list Display.AddOnLine) (r : PricingCalculation),
    Display.get_add_ons_breakdown t keys year = Ok lines /\
    calculate_pricing t booth keys year dk ct = Ok r /\
    map Display.key lines =
      List.filter (dict_contains (get_add_ons_pricing t year)) keys /\
    Forall (fun line =>
              exists entry,
                get_add_ons_pricing t year !! Display.key line = Some entry /\
                Display.label line = Pricing.label entry /\
                Display.price line = Pricing.price entry /\
                Display.price_formatted line = Display.currency (Pricing.price entry))
           lines /\
    MultiMeeting.sum_amounts (map Display.price lines) = add_ons_total r.
Proof.
  destruct (breakdown_loop_spec (get_add_ons_pricing t year) keys [])
    as (lines & Hloop & Hkeys & Hall & Hsum).
  destruct (calculate_pricing_unfold t booth keys year dk ct)
    as (r & E & _ & _ & _ & _ & Ha & _).
  exists lines, r. unfold Display.get_add_ons_breakdown. cbv zeta.
  rewrite Hloop. simpl. repeat split; try assumption. rewrite Ha. exact Hsum.
Qed.

End DisplayProperties.

(** ** Package summary and add-on selection: properties *)

Section SelectionProperties.

Import Spec2.
Local Open Scope string_scope.
Local Open Scope Qc_scope.


Lemma inner_selection_is_filter (g : string -> bool) (keys : list string) :
  flat_map (fun key => if g key then [key] else []) keys = List.filter g keys.
Proof.
  induction keys as [|key keys IH]; simpl; [reflexivity|].
  rewrite IH. destruct (g key); reflexivity.
Qed.

Lemma selected_addons_is_filter (checkbox : string -> string -> bool)
    (pricing : gmap string AddOnEntry) :
  AddOnSelection.selected_addons checkbox pricing =
  List.filter (box_checked checkbox pricing)
    (flat_map snd AddOnSelection.ADD_ON_CATEGORIES).
Proof.
  unfold AddOnSelection.selected_addons.
  induction AddOnSelection.ADD_ON_CATEGORIES as [|[category keys] cats IH];
    [reflexivity|].
  cbn [flat_map snd]. rewrite List.filter_app, <- IH. f_equal.
  rewrite <- inner_selection_is_filter. apply flat_map_ext.
  intros key. unfold box_checked. destruct (pricing !! key); reflexivity.
Qed.

(** The list of add-on keys the single-event form passes to
    [calculate_pricing] never repeats a key, whatever boxes are checked
    and whatever the table holds; it holds exactly the category keys
    that the table has and whose box is checked; so every selected
    add-on is charged once. *)
Theorem selected_addons_never_repeat_a_key (checkbox : string -> string -> bool)
    (t : PricingTables) (year : Z) (booth dk : string) (ct : option amount) :
  List.NoDup (AddOnSelection.selected_addons checkbox (get_add_ons_pricing t year)) /\
  (forall key,
      In key (AddOnSelection.selected_addons checkbox (get_add_ons_pricing t year)) <->
      In key (flat_map snd AddOnSelection.ADD_ON_CATEGORIES) /\
      exists addon, get_add_ons_pricing t year !! key = Some addon /\
        checkbox (Pricing.label addon ++ " - " ++ Display.currency (Pricing.price addon))
          ("addon_" ++ key) = true) /\
  exists r : PricingCalculation,
    calculate_pricing t booth
      (AddOnSelection.selected_addons checkbox (get_add_ons_pricing t year))
      year dk ct = Ok r /\
    add_ons_total r =
      keys_total (get_add_ons_pricing t year)
        (AddOnSelection.selected_addons checkbox (get_add_ons_pricing t year)).
Proof.
  rewrite selected_addons_is_filter. split; [|split].
  - apply List.NoDup_filter. apply NoDup_ListNoDup.
    apply (bool_decide_unpack _). vm_compute. exact I.
  - intros key. rewrite filter_In. unfold box_checked.
    destruct (get_add_ons_pricing t year !! key) as [addon|].
    + split.
      * intros [Hin Hc]. split; [exact Hin|]. exists addon. auto.
      * intros [Hin (a & [= <-] & Hc)]. auto.
    + split; [intros [_ H]; discriminate H | intros [_ (a & H & _)]; discriminate H].
  - destruct (calculate_pricing_unfold t booth
                (List.filter (box_checked checkbox (get_add_ons_pricing t year))
                   (flat_map snd AddOnSelection.ADD_ON_CATEGORIES)) year dk ct)
      as (r & E & _ & _ & _ & _ & Ha & _).
    exists r. auto.
Qed.

End SelectionProperties.

(** ** Instances of the further properties *)

Section ExtraInstances.

Import Spec2 EventQueries.
Local Open Scope string_scope.
Local Open Scope Qc_scope.

Lemma match_ignores_case_witness :
  lower "ASCO DIRECT DENVER" = lower "asco direct denver" /\
  match_with_confidence event_matcher "ASCO DIRECT DENVER" =
    match_with_confidence event_matcher "asco direct denver" /\
  match_event event_matcher "ASCO DIRECT DENVER" =
    match_event event_matcher "asco direct denver" /\
  match_with_confidence event_matcher (lower "ASCO DIRECT DENVER") =
    match_with_confidence event_matcher "ASCO DIRECT DENVER".
Proof.
  split; [reflexivity|].
  exact (match_ignores_case event_matcher "ASCO DIRECT DENVER" "asco direct denver"
           eq_refl).
Defined.

Lemma catalog_names_match_themselves_witness :
  In (mkEvent "2026 ASCO Direct Denver" "June 27-28, 2026"
        "Denver Marriott Westminster" "Denver, CO" "standard_2d" (Some 60%Z))
     ALL_EVENTS /\
  match_event_with_confidence "2026 ASCO Direct Denver" =
    (Some (mkEvent "2026 ASCO Direct Denver" "June 27-28, 2026"
             "Denver Marriott Westminster" "Denver, CO" "standard_2d" (Some 60%Z)),
     "exact").
Proof.
  assert (Hin : In (mkEvent "2026 ASCO Direct Denver" "June 27-28, 2026"
                      "Denver Marriott Westminster" "Denver, CO" "standard_2d"
                      (Some 60%Z)) ALL_EVENTS).
  { unfold ALL_EVENTS, EVENTS_2026. apply in_or_app. right.
    repeat (first [left; reflexivity | right]). }
  split; [exact Hin|].
  exact (catalog_names_match_themselves _ Hin).
Defined.

(** The two configs of [test_multi_meeting_aggregation]. *)
Lemma multi_meeting_prices_events_separately_witness :
  exists r : MultiMeeting.MultiMeetingPricing,
    MultiMeeting.calculate_multi_meeting_pricing fallback_tables
      [ MultiMeeting.mkEventConfig
          (Some (mkEvent "Event 1" "June 1, 2025" "Venue 1" "City 1" "standard_1d" None))
          (Some "standard_1d") (Some []);
        MultiMeeting.mkEventConfig
          (Some (mkEvent "Event 2" "July 1, 2025" "Venue 2" "City 2" "standard_1d" None))
          (Some "standard_2d") (Some ["program_ad_full"]) ] = Ok r /\
    this (MultiMeeting.total_booth_cost r) = (12500 # 1)%Q /\
    this (MultiMeeting.total_addon_cost r) = (2000 # 1)%Q /\
    this (MultiMeeting.final_total r) = (14500 # 1)%Q /\
    Forall2 (fun config entry =>
               exists (e : Event) (pricing : PricingCalculation),
                 MultiMeeting.config_event config = Some e /\
                 calculate_pricing fallback_tables
                   (MultiMeeting.config_get_booth_tier config)
                   (MultiMeeting.config_get_add_on_keys config) (get_year e)
                   "none" None = Ok pricing /\
                 MultiMeeting.event_name entry = meeting_name e /\
                 MultiMeeting.booth_cost entry = booth_price pricing /\
                 MultiMeeting.addon_cost entry = add_ons_total pricing /\
                 MultiMeeting.event_total entry = final_total pricing)
            [ MultiMeeting.mkEventConfig
                (Some (mkEvent "Event 1" "June 1, 2025" "Venue 1" "City 1" "standard_1d" None))
                (Some "standard_1d") (Some []);
              MultiMeeting.mkEventConfig
                (Some (mkEvent "Event 2" "July 1, 2025" "Venue 2" "City 2" "standard_1d" None))
                (Some "standard_2d") (Some ["program_ad_full"]) ]
            (MultiMeeting.events_breakdown r).
Proof.
  eexists. split; [vm_compute; reflexivity|].
  split; [vm_compute; reflexivity|].
  split; [vm_compute; reflexivity|].
  split; [vm_compute; reflexivity|].
  apply (multi_meeting_prices_events_separately fallback_tables).
  vm_compute. reflexivity.
Defined.




(** Currency texts, as the format prints them. *)
Example currency_examples :
  Display.currency (of_Z 7500) = "$7,500.00" /\
  Display.currency (Q2Qc (-12345675 # 10)) = "$-1,234,567.50" /\
  Display.currency (Q2Qc (125 # 1000)) = "$0.12" /\
  Display.currency (Q2Qc (375 # 1000)) = "$0.38" /\
  Display.currency 0 = "$0.00".
Proof. repeat split; vm_compute; reflexivity. Qed.

End ExtraInstances.

(** ** The document payload of a package: properties *)

Section PayloadProperties.

Local Open Scope string_scope.
Local Open Scope Qc_scope.

(** [_create_package_payload] raises [NameError] for the name [self]
    exactly when the package's [additional_info] is [None] or empty; in
    particular it raises on every package that [create_package] builds
    with an empty [additional_info] (its default).  Otherwise the
    payload carries that text, the package's [final_total] both as
    [subtotal] and as [final_total] with its currency text, no discount,
    no add-on keys, and [booth_selected] exactly when the total booth
    cost is positive. *)
Theorem package_payload_needs_additional_info :
  (forall p : Package.MultiMeetingPackage,
      Package.additional_info p = None \/ Package.additional_info p = Some "" <->
      PackagePayload._create_package_payload p = inl (PackagePayload.NameError "self")) /\
  (forall (p : Package.MultiMeetingPackage) (c : ascii) (info : string),
      Package.additional_info p = Some (String c info) ->
      exists payload : PackagePayload.Payload,
        PackagePayload._create_package_payload p = inr payload /\
        PackagePayload.additional_info payload = String c info /\
        PackagePayload.subtotal payload = Package.final_total p /\
        PackagePayload.final_total payload = Package.final_total p /\
        PackagePayload.amount_currency payload = Display.currency (Package.final_total p) /\
        PackagePayload.discount_applied payload = 0 /\
        PackagePayload.add_on_keys payload = [] /\
        (PackagePayload.booth_selected payload = true <-> 0 < Package.total_booth_cost p)) /\
  (forall (t : PricingTables) (company_name : string)
          (configs : list MultiMeeting.EventConfig)
          (document_type company_address : string) (p : Package.MultiMeetingPackage),
      Package.create_package t company_name configs document_type "" company_address = Ok p ->
      PackagePayload._create_package_payload p = inl (PackagePayload.NameError "self")).
Proof.
  assert (Hraise : forall p : Package.MultiMeetingPackage,
            Package.additional_info p = None \/ Package.additional_info p = Some "" <->
            PackagePayload._create_package_payload p = inl (PackagePayload.NameError "self")).
  { intros p. unfold PackagePayload._create_package_payload,
      PackagePayload.additional_info_or_event_list. cbv zeta.
    destruct (Package.additional_info p) as [[|c info]|]; simpl.
    - split; auto.
    - split; [intros [H|H]; discriminate H | discriminate].
    - split; auto. }
  split; [exact Hraise|]. split.
  - intros p c info Hinfo.
    unfold PackagePayload._create_package_payload,
      PackagePayload.additional_info_or_event_list. cbv zeta.
    rewrite Hinfo. simpl. eexists. split; [reflexivity|]. simpl.
    repeat split; try reflexivity.
    + intros H. apply bool_decide_eq_true in H. exact H.
    + intros H. apply bool_decide_eq_true. exact H.
  - intros t company_name configs document_type company_address p Hp.
    apply Hraise. right.
    unfold Package.create_package in Hp. cbv zeta in Hp.
    destruct (configs_all_or_missing configs) as [Hall|Hmiss].
    + destruct (pricing_loop_ok t configs 0 0 [] Hall) as (entries & _ & Hf2).
      destruct (create_package_loop_ok t configs entries
                  (Package.mkMultiMeetingPackage company_name [] 0 0 0 document_type
                     (Some "") (Some company_address)) Hf2)
        as (p' & Hp' & _ & _ & _ & _ & _ & _ & Hinfo & _).
      rewrite Hp' in Hp. injection Hp as <-. exact Hinfo.
    + rewrite (create_package_loop_raises t configs _ Hmiss) in Hp. discriminate Hp.
Qed.

End PayloadProperties.
